(** * JQ6500 serial MP3 module driver (jq6500.py): frames, queries, decoding

    A shallow embedding of class [Player] of [jq6500.py].  Python integers
    are [Z], a [bytes] object is a list of integers, the UART object held in
    [self.uart] is an explicit state threaded through every method, and a
    Python exception is an outcome of the method next to its return value. *)

From Stdlib Require Import ZArith List Bool Lia.
Import ListNotations.
Open Scope Z_scope.

(** ** Python built-ins used by the driver *)

Module Py.

(** The exceptions the driver can raise: [assert] and the conversions
    [bytes(...)] and [int(...)]. *)
Inductive exn : Type :=
| AssertionError
| ValueError.

(** [bytes(data)] accepts a list of integers in [range(0, 256)]. *)
Definition is_byte (x : Z) : bool := (0 <=? x) && (x <=? 255).

Definition bytes (data : list Z) : option (list Z) :=
  if forallb is_byte data then Some data else None.

(** [len(b)] *)
Definition len {A : Type} (l : list A) : Z := Z.of_nat (length l).

(** ASCII white space as [int] strips it: space and the controls 9 to 13. *)
Definition is_space (c : Z) : bool :=
  (c =? 32) || ((9 <=? c) && (c <=? 13)).

Definition is_decimal_digit (c : Z) : bool := (48 <=? c) && (c <=? 57).

(** [b.isdigit()]: every byte is an ASCII decimal digit and there is at
    least one byte. *)
Definition isdigit (b : list Z) : bool :=
  match b with
  | [] => false
  | _ => forallb is_decimal_digit b
  end.

(** Value of a character as a digit, for bases up to 36. *)
Definition digit_value (c : Z) : option Z :=
  if (48 <=? c) && (c <=? 57) then Some (c - 48)
  else if (97 <=? c) && (c <=? 122) then Some (c - 87)
  else if (65 <=? c) && (c <=? 90) then Some (c - 55)
  else None.

Definition digit_in (base c : Z) : option Z :=
  match digit_value c with
  | Some d => if d <? base then Some d else None
  | None => None
  end.

Fixpoint drop_space (s : list Z) : list Z :=
  match s with
  | c :: t => if is_space c then drop_space t else s
  | [] => []
  end.

(** The digits of a numeral: digits of the base with single underscores
    between them.  [prev_us] tells that the previous character was an
    underscore, [acc] is the value read so far, [n] the number of characters
    read.  The result is [None] for a doubled or a trailing underscore, and
    otherwise the value, the number of characters read and what follows
    them. *)
Fixpoint scan_digits (base : Z) (s : list Z) (prev_us : bool) (acc : Z) (n : nat)
  : option (Z * nat * list Z) :=
  match s with
  | [] => if prev_us then None else Some (acc, n, [])
  | c :: t =>
      if c =? 95 then
        if prev_us then None else scan_digits base t true acc (S n)
      else
        match digit_in base c with
        | Some d => scan_digits base t false (base * acc + d) (S n)
        | None => if prev_us then None else Some (acc, n, s)
        end
  end.

(** An optional sign in front of the numeral. *)
Definition strip_sign (s : list Z) : bool * list Z :=
  match s with
  | c :: t =>
      if c =? 43 then (false, t)
      else if c =? 45 then (true, t)
      else (false, s)
  | [] => (false, s)
  end.

(** For base 16 an optional prefix [0x] or [0X], which one underscore may
    follow. *)
Definition strip_prefix (base : Z) (s : list Z) : list Z :=
  match s with
  | z :: c :: t =>
      if (base =? 16) && (z =? 48) && ((c =? 120) || (c =? 88)) then
        match t with
        | c' :: t' => if c' =? 95 then t' else t
        | [] => t
        end
      else s
  | _ => s
  end.

Definition starts_with_underscore (s : list Z) : bool :=
  match s with
  | c :: _ => c =? 95
  | [] => false
  end.

(** [int(b, base)] on a bytes object, for the bases the driver uses (10 and
    16): white space around the numeral, an optional sign, for base 16 an
    optional prefix, then at least one digit.  [None] stands for
    [ValueError].  The length limit that recent CPython puts on decimal
    strings is beyond what a serial receive buffer holds and is left out. *)
Definition int (b : list Z) (base : Z) : option Z :=
  let s1 := drop_space b in
  let '(neg, s2) := strip_sign s1 in
  let s3 := strip_prefix base s2 in
  if starts_with_underscore s3 then None
  else
    match scan_digits base s3 false 0 0 with
    | Some (v, S _, rest) =>
        match drop_space rest with
        | [] => Some (if neg then - v else v)
        | _ :: _ => None
        end
    | _ => None
    end.

End Py.

(** ** The serial link *)

(** Modelled from the spec: [busio.UART] is an external library; the link is
    modelled as the spec's SerialLink describes it and as the driver uses it.
    [rx] holds the bytes received and not yet read, [tx] the byte strings
    written so far (oldest first, one entry per call of [write]), [device]
    the replies the device will give, one per written frame (an exhausted
    script means silence), and [console] what [print] has shown.  A reply is
    taken to have arrived when the driver next reads, so the fixed delays
    have no effect on the model. *)
Record UART : Type := mkUART {
  rx : list Z;
  tx : list (list Z);
  device : list (list Z);
  console : list (list Z)
}.

(** A method of the driver: from the state of the link to an outcome and the
    state the link is left in (also when the method raises). *)
Inductive outcome (A : Type) : Type :=
| Return (a : A)
| Raise (e : Py.exn).
Arguments Return {A} a.
Arguments Raise {A} e.

Definition M (A : Type) : Type := UART -> outcome A * UART.

Definition ret {A : Type} (a : A) : M A := fun u => (Return a, u).

Definition raise {A : Type} (e : Py.exn) : M A := fun u => (Raise e, u).

Definition bind {A B : Type} (m : M A) (k : A -> M B) : M B :=
  fun u =>
    match m u with
    | (Return a, u') => k a u'
    | (Raise e, u') => (Raise e, u')
    end.

Notation "x <- m ;; k" := (bind m (fun x => k))
  (at level 61, m at next level, right associativity).
Notation "m ;; k" := (bind m (fun _ => k))
  (at level 61, right associativity).

(** [uart.read()]: everything received so far, possibly nothing. *)
Definition uart_read_all : M (list Z) :=
  fun u => (Return (rx u), mkUART [] (tx u) (device u) (console u)).

(** [uart.read(n)]: at most [n] of the bytes received. *)
Definition uart_read (n : nat) : M (list Z) :=
  fun u => (Return (firstn n (rx u)),
            mkUART (skipn n (rx u)) (tx u) (device u) (console u)).

(** [uart.write(bs)]: the bytes go out and the device's next reply comes in. *)
Definition uart_write (bs : list Z) : M unit :=
  fun u => (Return tt,
            mkUART (rx u ++ hd [] (device u)) (tx u ++ [bs])
                   (tl (device u)) (console u)).

(** [print(b)] *)
Definition print (b : list Z) : M unit :=
  fun u => (Return tt, mkUART (rx u) (tx u) (device u) (console u ++ [b])).

(** [time.sleep(seconds)], the duration in milliseconds. *)
Module Time.

Definition sleep (ms : Z) : M unit := ret tt.

End Time.

(** [bytes(data)] as a step of a method. *)
Definition to_bytes (data : list Z) : M (list Z) :=
  match Py.bytes data with
  | Some bs => ret bs
  | None => raise Py.ValueError
  end.

(** [int(b, base)] as a step of a method. *)
Definition to_int (b : list Z) (base : Z) : M Z :=
  match Py.int b base with
  | Some v => ret v
  | None => raise Py.ValueError
  end.

(** [assert(c)] *)
Definition assert (c : bool) : M unit :=
  if c then ret tt else raise Py.AssertionError.

(** ** class Player *)

Module Player.

Definition EQ_NORMAL : Z := 0.
Definition EQ_POP : Z := 1.
Definition EQ_ROCK : Z := 2.
Definition EQ_JAZZ : Z := 3.
Definition EQ_CLASSIC : Z := 4.
Definition EQ_BASS : Z := 5.

Definition SRC_SDCARD : Z := 1.
Definition SRC_BUILTIN : Z := 4.

Definition LOOP_ALL : Z := 0.
Definition LOOP_FOLDER : Z := 1.
Definition LOOP_ONE : Z := 2.
Definition LOOP_RAM : Z := 3.
Definition LOOP_ONE_STOP : Z := 4.
Definition LOOP_NONE : Z := 4.

Definition STATUS_STOPPED : Z := 0.
Definition STATUS_PLAYING : Z := 1.
Definition STATUS_PAUSED : Z := 2.

(** [READ_DELAY = .1] seconds. *)
Definition READ_DELAY : Z := 100.

Definition write_bytes (b : list Z) : M unit :=
  let message_length := Py.len b + 1 in
  let data := [0x7E; message_length] ++ b ++ [0xEF] in
  uart_read_all ;;
  bs <- to_bytes data ;;
  uart_write bs.

Definition read_bytes : M Z :=
  b <- uart_read 4 ;;
  print b ;;
  if Py.len b >? 0 then to_int b 16 else ret (-1).

Definition play : M unit := write_bytes [0x0D].

Definition pause : M unit := write_bytes [0x0E].

Definition next : M unit := write_bytes [0x01].

Definition prev : M unit := write_bytes [0x02].

Definition next_folder : M unit := write_bytes [0x0F; 0x01].

Definition prev_folder : M unit := write_bytes [0x0F; 0x00].

Definition play_by_index (file_index : Z) : M unit :=
  write_bytes [0x03; Z.land (Z.shiftr file_index 8) 0xFF; Z.land file_index 0xFF].

Definition play_by_number (folder_number file_number : Z) : M unit :=
  write_bytes [0x12; Z.land folder_number 0xFF; Z.land file_number 0xFF].

Definition volume_up : M unit := write_bytes [0x04].

Definition volume_down : M unit := write_bytes [0x05].

Definition set_volume (level : Z) : M unit :=
  assert ((0 <=? level) && (level <=? 30)) ;;
  write_bytes [0x06; level].

Definition set_equalizer (mode : Z) : M unit := write_bytes [0x07; mode].

Definition set_looping (mode : Z) : M unit := write_bytes [0x11; mode].

Definition set_source (source : Z) : M unit := write_bytes [0x09; source].

Definition sleep : M unit := write_bytes [0x0A].

Definition reset : M unit :=
  write_bytes [0x0C] ;;
  Time.sleep 500.

Definition get_status : M Z :=
  write_bytes [0x42] ;;
  Time.sleep READ_DELAY ;;
  status <- uart_read_all ;;
  Time.sleep READ_DELAY ;;
  if Py.isdigit status then to_int status 10 else ret (-1).

Definition get_volume : M Z :=
  write_bytes [0x43] ;;
  Time.sleep READ_DELAY ;;
  level <- read_bytes ;;
  ret level.

Definition get_equalizer : M Z :=
  write_bytes [0x44] ;;
  Time.sleep READ_DELAY ;;
  eq <- read_bytes ;;
  ret eq.

Definition get_looping : M Z :=
  write_bytes [0x45] ;;
  Time.sleep READ_DELAY ;;
  looping <- read_bytes ;;
  ret looping.

Definition get_file_count (source : Z) : M Z :=
  (if source =? SRC_SDCARD then write_bytes [0x47] else write_bytes [0x49]) ;;
  Time.sleep READ_DELAY ;;
  count <- read_bytes ;;
  ret count.

Definition get_folder_count (source : Z) : M Z :=
  if source =? SRC_SDCARD then
    write_bytes [0x53] ;;
    count <- read_bytes ;;
    ret count
  else
    ret 0.

Definition get_file_index (source : Z) : M Z :=
  if source =? SRC_SDCARD then
    write_bytes [0x4B] ;;
    Time.sleep READ_DELAY ;;
    count <- read_bytes ;;
    ret count
  else
    write_bytes [0x4D] ;;
    Time.sleep READ_DELAY ;;
    count <- read_bytes ;;
    ret (count + 1).

Definition get_position : M Z :=
  write_bytes [0x50] ;;
  Time.sleep READ_DELAY ;;
  position <- read_bytes ;;
  ret position.

Definition get_length : M Z :=
  write_bytes [0x51] ;;
  Time.sleep READ_DELAY ;;
  length <- read_bytes ;;
  ret length.

Definition get_name : M (list Z) :=
  write_bytes [0x52] ;;
  Time.sleep READ_DELAY ;;
  uart_read_all.

Definition get_version : M Z :=
  write_bytes [0x46] ;;
  Time.sleep READ_DELAY ;;
  version <- read_bytes ;;
  ret version.

Definition read_buffer : M (list Z) := uart_read_all.

Definition play_pause : M unit :=
  status <- get_status ;;
  if (status =? STATUS_PAUSED) || (status =? STATUS_STOPPED) then play
  else if status =? STATUS_PLAYING then pause
  else ret tt.

Definition restart : M unit :=
  old_volume <- get_volume ;;
  set_volume 0 ;;
  next ;;
  pause ;;
  set_volume old_volume ;;
  prev.

(** [__init__(rx, tx, volume)], run on the link that [busio.UART(...)] has
    just opened. *)
Definition init (volume : Z) : M unit :=
  uart_read_all ;;
  reset ;;
  set_volume volume.

End Player.

(** ** Vocabulary of the statements *)

(** The link after a frame [f] has been written by [write_bytes]: input
    flushed, the frame appended to the output, the device's reply received. *)
Definition after_write (f : list Z) (u : UART) : UART :=
  mkUART (hd [] (device u)) (tx u ++ [f]) (tl (device u)) (console u).

(** The reply of the device to the next frame written. *)
Definition next_reply (u : UART) : list Z := hd [] (device u).

(** What [read_bytes] makes of a reply [r] waiting on the link. *)
Definition decoded (r : list Z) : outcome Z :=
  fst (Player.read_bytes (mkUART r [] [] [])).

(** The numeric queries that return what [read_bytes] decodes, each with
    the opcode it sends. *)
Definition generic_queries : list (M Z * Z) :=
  [ (Player.get_volume, 0x43);
    (Player.get_equalizer, 0x44);
    (Player.get_looping, 0x45);
    (Player.get_version, 0x46);
    (Player.get_file_count Player.SRC_SDCARD, 0x47);
    (Player.get_file_count Player.SRC_BUILTIN, 0x49);
    (Player.get_folder_count Player.SRC_SDCARD, 0x53);
    (Player.get_file_index Player.SRC_SDCARD, 0x4B);
    (Player.get_position, 0x50);
    (Player.get_length, 0x51) ].

(** The hexadecimal digits: [0-9], [a-f], [A-F]. *)
Definition is_hex_digit (c : Z) : Prop :=
  48 <= c <= 57 \/ 97 <= c <= 102 \/ 65 <= c <= 70.

Definition hex_digit_value (c : Z) : Z :=
  if c <=? 57 then c - 48 else if c <=? 70 then c - 55 else c - 87.

(** Value of a string of hexadecimal digits, most significant first. *)
Definition hex_value (s : list Z) : Z :=
  fold_left (fun acc c => 16 * acc + hex_digit_value c) s 0.

(** Value of a string of decimal digits. *)
Definition decimal_value (s : list Z) : Z :=
  fold_left (fun acc c => 10 * acc + (c - 48)) s 0.

(** A digit of the base, of value [dv c], that is also a hexadecimal digit
    character: this covers the decimal digits at base 10 and all sixteen at
    base 16. *)
Definition plain_digit (base : Z) (dv : Z -> Z) (c : Z) : Prop :=
  is_hex_digit c /\ Py.digit_in base c = Some (dv c).

(** The characters that can occur in a base-16 numeral accepted by [int]:
    digits, white space, a sign, an underscore, the [x] of the prefix. *)
Definition numeral_char (c : Z) : Prop :=
  is_hex_digit c \/ c = 32 \/ 9 <= c <= 13 \/ c = 43 \/ c = 45 \/ c = 95
  \/ c = 120 \/ c = 88.

(** The frame that [write_bytes] builds for a payload [b]. *)
Definition frame_of (b : list Z) : list Z :=
  [0x7E; Py.len b + 1] ++ b ++ [0xEF].

(** A frame as the driver's methods send them: a payload of one opcode and
    at most two arguments, all bytes, between the markers and after its
    length; a payload of opcode 0x06 (set volume) has one argument, a level
    of 0 to 30. *)
Definition driver_frame (f : list Z) : Prop :=
  exists payload,
    f = frame_of payload /\
    (1 <= length payload <= 3)%nat /\
    Forall (fun x => 0 <= x <= 255) payload /\
    (forall rest, payload = 0x06 :: rest ->
     exists level, rest = [level] /\ 0 <= level <= 30).

(** A frame as [write_bytes] sends them for any payload that [bytes]
    accepts: the payload, of bytes, between the markers and after its
    length, itself a byte. *)
Definition link_frame (f : list Z) : Prop :=
  exists payload,
    f = frame_of payload /\
    Forall (fun x => 0 <= x <= 255) payload /\
    (length payload <= 254)%nat.

(** A method that leaves on the link's output what was there, followed by
    frames of the driver. *)
Definition emits_frames {A : Type} (m : M A) : Prop :=
  forall u, exists fs, tx (snd (m u)) = tx u ++ fs /\ Forall driver_frame fs.

(** The methods of a [Player] object, all of them, as a client calls them
    once the constructor has returned. *)
Inductive call : Type :=
| CleanUp
| Play
| PlayPause
| Restart
| Pause
| Next
| Prev
| NextFolder
| PrevFolder
| PlayByIndex (file_index : Z)
| PlayByNumber (folder_number file_number : Z)
| VolumeUp
| VolumeDown
| SetVolume (level : Z)
| SetEqualizer (mode : Z)
| SetLooping (mode : Z)
| SetSource (source : Z)
| Sleep
| Reset
| GetStatus
| GetVolume
| GetEqualizer
| GetLooping
| GetFileCount (source : Z)
| GetFolderCount (source : Z)
| GetFileIndex (source : Z)
| GetPosition
| GetLength
| GetName
| GetVersion
| ReadBuffer
| ReadBytes
| WriteBytes (b : list Z).

(** [write_bytes] called by the client itself, with a payload of its
    choice. *)
Definition is_raw (c : call) : bool :=
  match c with
  | WriteBytes _ => true
  | _ => false
  end.

(** The state of the link after a method, whatever it returned or raised. *)
Definition link_after {A : Type} (m : M A) (u : UART) : UART := snd (m u).

(** What a call does to a link that is open; for [clean_up] this is its
    [reset]. *)
Definition traffic (c : call) : UART -> UART :=
  match c with
  | CleanUp => link_after Player.reset
  | Play => link_after Player.play
  | PlayPause => link_after Player.play_pause
  | Restart => link_after Player.restart
  | Pause => link_after Player.pause
  | Next => link_after Player.next
  | Prev => link_after Player.prev
  | NextFolder => link_after Player.next_folder
  | PrevFolder => link_after Player.prev_folder
  | PlayByIndex file_index => link_after (Player.play_by_index file_index)
  | PlayByNumber folder_number file_number =>
      link_after (Player.play_by_number folder_number file_number)
  | VolumeUp => link_after Player.volume_up
  | VolumeDown => link_after Player.volume_down
  | SetVolume level => link_after (Player.set_volume level)
  | SetEqualizer mode => link_after (Player.set_equalizer mode)
  | SetLooping mode => link_after (Player.set_looping mode)
  | SetSource source => link_after (Player.set_source source)
  | Sleep => link_after Player.sleep
  | Reset => link_after Player.reset
  | GetStatus => link_after Player.get_status
  | GetVolume => link_after Player.get_volume
  | GetEqualizer => link_after Player.get_equalizer
  | GetLooping => link_after Player.get_looping
  | GetFileCount source => link_after (Player.get_file_count source)
  | GetFolderCount source => link_after (Player.get_folder_count source)
  | GetFileIndex source => link_after (Player.get_file_index source)
  | GetPosition => link_after Player.get_position
  | GetLength => link_after Player.get_length
  | GetName => link_after Player.get_name
  | GetVersion => link_after Player.get_version
  | ReadBuffer => link_after Player.read_buffer
  | ReadBytes => link_after Player.read_bytes
  | WriteBytes b => link_after (Player.write_bytes b)
  end.

(** The object held in [self.uart] over the life of a [Player]: the link,
    whether the object has a [deinit] method, and whether [deinit] has been
    called.  A [busio.UART] that has been deinitialised raises [ValueError]
    at every further use, so that a method called after that stops where it
    first reads or writes, with the link as it was. *)
Record Handle : Type := mkHandle {
  uart : UART;
  has_deinit : bool;
  released : bool
}.

(** [clean_up]: reset the device, then [deinit] the link if it has one. *)
Definition clean_up (h : Handle) : outcome unit * Handle :=
  if released h then (Raise Py.ValueError, h)
  else
    match Player.reset (uart h) with
    | (Return _, u') =>
        if has_deinit h
        then (Return tt, mkHandle u' (has_deinit h) true)
        else (Return tt, mkHandle u' (has_deinit h) (released h))
    | (Raise e, u') => (Raise e, mkHandle u' (has_deinit h) (released h))
    end.

(** A call made by the client, whatever it returns or raises. *)
Definition perform (c : call) (h : Handle) : Handle :=
  match c with
  | CleanUp => snd (clean_up h)
  | _ =>
      if released h then h
      else mkHandle (traffic c (uart h)) (has_deinit h) (released h)
  end.

(** A client that makes the calls of [cs] one after the other and goes on
    after an exception. *)
Definition session (cs : list call) (h : Handle) : Handle :=
  fold_left (fun h c => perform c h) cs h.

(** The life of a [Player]: the constructor on a link just opened, whose
    object has a [deinit] or not, then the calls of [cs] if the constructor
    returned; when it raises there is no object to call. *)
Definition lifetime (volume : Z) (cs : list call) (d : bool) (u : UART)
  : Handle :=
  match Player.init volume u with
  | (Return _, u') => session cs (mkHandle u' d false)
  | (Raise _, u') => mkHandle u' d false
  end.

(** ** Running the methods *)

Lemma bind_Return {A B : Type} (m : M A) (k : A -> M B) u a u' :
  m u = (Return a, u') -> bind m k u = k a u'.
Proof. intros H. unfold bind. now rewrite H. Qed.

Lemma bind_Raise {A B : Type} (m : M A) (k : A -> M B) u e u' :
  m u = (Raise e, u') -> bind m k u = (Raise e, u').
Proof. intros H. unfold bind. now rewrite H. Qed.

Lemma is_byte_iff (x : Z) : Py.is_byte x = true <-> 0 <= x <= 255.
Proof. unfold Py.is_byte. rewrite andb_true_iff, !Z.leb_le. tauto. Qed.

Lemma write_bytes_ok (b : list Z) (u : UART) :
  forallb Py.is_byte ([0x7E; Py.len b + 1] ++ b ++ [0xEF]) = true ->
  Player.write_bytes b u
  = (Return tt, after_write ([0x7E; Py.len b + 1] ++ b ++ [0xEF]) u).
Proof.
  intros H. unfold Player.write_bytes, bind, uart_read_all, to_bytes, Py.bytes.
  rewrite H. reflexivity.
Qed.

Lemma write_bytes_bad (b : list Z) (u : UART) :
  forallb Py.is_byte ([0x7E; Py.len b + 1] ++ b ++ [0xEF]) = false ->
  Player.write_bytes b u
  = (Raise Py.ValueError, mkUART [] (tx u) (device u) (console u)).
Proof.
  intros H. unfold Player.write_bytes, bind, uart_read_all, to_bytes, Py.bytes.
  rewrite H. reflexivity.
Qed.

Lemma frame_is_bytes (b : list Z) :
  (forall x, In x b -> 0 <= x <= 255) -> (length b < 255)%nat ->
  forallb Py.is_byte ([0x7E; Py.len b + 1] ++ b ++ [0xEF]) = true.
Proof.
  intros Hb Hl. apply forallb_forall. intros x Hx. apply is_byte_iff.
  simpl in Hx. destruct Hx as [<- | [<- | Hx]]; [lia | unfold Py.len; lia |].
  apply in_app_or in Hx. destruct Hx as [Hx | [<- | []]]; [auto | lia].
Qed.

(** A frame with one opcode and no argument. *)
Lemma write_opcode (op : Z) (u : UART) :
  0 <= op <= 255 ->
  Player.write_bytes [op] u = (Return tt, after_write [0x7E; 0x02; op; 0xEF] u).
Proof.
  intros H. rewrite write_bytes_ok; [reflexivity |].
  apply frame_is_bytes; [| simpl; lia].
  intros x [<- | []]. exact H.
Qed.

Lemma set_volume_ok (level : Z) (u : UART) :
  0 <= level <= 30 ->
  Player.set_volume level u
  = (Return tt, after_write [0x7E; 0x03; 0x06; level; 0xEF] u).
Proof.
  intros H. unfold Player.set_volume, bind, assert.
  replace ((0 <=? level) && (level <=? 30)) with true
    by (symmetry; apply andb_true_iff; rewrite !Z.leb_le; lia).
  unfold ret. rewrite write_bytes_ok; [reflexivity |].
  apply frame_is_bytes; [| simpl; lia].
  intros x [<- | [<- | []]]; lia.
Qed.

Lemma set_volume_bad (level : Z) (u : UART) :
  ~ 0 <= level <= 30 ->
  Player.set_volume level u = (Raise Py.AssertionError, u).
Proof.
  intros H. unfold Player.set_volume, bind, assert.
  replace ((0 <=? level) && (level <=? 30)) with false; [reflexivity |].
  symmetry. apply andb_false_iff. rewrite !Z.leb_gt. lia.
Qed.

Lemma reset_ok (u : UART) :
  Player.reset u = (Return tt, after_write [0x7E; 0x02; 0x0C; 0xEF] u).
Proof.
  unfold Player.reset. rewrite (bind_Return _ _ _ _ _ (write_opcode 0x0C u ltac:(lia))).
  reflexivity.
Qed.

(** ** Frames *)

(** The 16-bit index of [play_by_index] goes out high byte first. *)
Example play_by_index_300 :
  tx (snd (Player.play_by_index 300 (mkUART [] [] [] [])))
  = [[0x7E; 0x04; 0x03; 0x01; 0x2C; 0xEF]].
Proof. reflexivity. Qed.

(** The frames of the commands without argument. *)
Lemma command_frames (u : UART) :
  Player.play u = (Return tt, after_write [0x7E; 0x02; 0x0D; 0xEF] u) /\
  Player.pause u = (Return tt, after_write [0x7E; 0x02; 0x0E; 0xEF] u) /\
  Player.next u = (Return tt, after_write [0x7E; 0x02; 0x01; 0xEF] u) /\
  Player.prev u = (Return tt, after_write [0x7E; 0x02; 0x02; 0xEF] u) /\
  Player.volume_up u = (Return tt, after_write [0x7E; 0x02; 0x04; 0xEF] u) /\
  Player.volume_down u = (Return tt, after_write [0x7E; 0x02; 0x05; 0xEF] u) /\
  Player.sleep u = (Return tt, after_write [0x7E; 0x02; 0x0A; 0xEF] u) /\
  Player.reset u = (Return tt, after_write [0x7E; 0x02; 0x0C; 0xEF] u).
Proof.
  repeat apply conj; try (apply write_opcode; lia). apply reset_ok.
Qed.

(** C1: [write_bytes b], for a payload [b] of bytes (opcode and arguments,
    possibly empty), sends exactly [0x7E, len(b)+1, b..., 0xEF] as one write
    on the link; a payload of one opcode [op] gives [0x7E, 0x02, op, 0xEF];
    the frame starts with 0x7E and ends with 0xEF.  When [bytes(data)]
    refuses the list, nothing is written at all. *)
Theorem write_bytes_frame (b : list Z) (u : UART) :
  ((forall x, In x b -> 0 <= x <= 255) -> (length b < 255)%nat ->
   fst (Player.write_bytes b u) = Return tt /\
   tx (snd (Player.write_bytes b u))
   = tx u ++ [[0x7E; Z.of_nat (length b) + 1] ++ b ++ [0xEF]]) /\
  (forall op, b = [op] -> 0 <= op <= 255 ->
   tx (snd (Player.write_bytes b u)) = tx u ++ [[0x7E; 0x02; op; 0xEF]]) /\
  (forall f, tx (snd (Player.write_bytes b u)) = tx u ++ [f] ->
   f = [0x7E; Z.of_nat (length b) + 1] ++ b ++ [0xEF] /\
   hd_error f = Some 0x7E /\ last f 0 = 0xEF) /\
  (tx (snd (Player.write_bytes b u)) = tx u \/
   exists f, tx (snd (Player.write_bytes b u)) = tx u ++ [f]).
Proof.
  split; [| split; [| split]].
  - intros Hb Hl. rewrite (write_bytes_ok b u (frame_is_bytes b Hb Hl)).
    split; reflexivity.
  - intros op -> Hop. now rewrite write_opcode.
  - intros f Hf.
    destruct (forallb Py.is_byte ([0x7E; Py.len b + 1] ++ b ++ [0xEF])) eqn:E.
    + rewrite (write_bytes_ok b u E) in Hf. simpl in Hf.
      apply app_inv_head in Hf. injection Hf as <-.
      split; [reflexivity |]. split; [reflexivity |].
      change (last (([0x7E; Py.len b + 1] ++ b) ++ [0xEF]) 0 = 0xEF).
      apply last_last.
    + rewrite (write_bytes_bad b u E) in Hf. simpl in Hf.
      exfalso. apply (f_equal (@length _)) in Hf.
      rewrite length_app in Hf. simpl in Hf. lia.
  - destruct (forallb Py.is_byte ([0x7E; Py.len b + 1] ++ b ++ [0xEF])) eqn:E.
    + right. rewrite (write_bytes_ok b u E). eexists. reflexivity.
    + left. now rewrite (write_bytes_bad b u E).
Qed.

(** ** The numeral parser *)

Section Numerals.

Variable base : Z.
Variable dv : Z -> Z.

Lemma plain_digit_not_special (c : Z) :
  plain_digit base dv c ->
  (c =? 95) = false /\ Py.is_space c = false /\ (c =? 43) = false /\
  (c =? 45) = false /\ (c =? 120) = false /\ (c =? 88) = false.
Proof.
  intros [H _]. unfold is_hex_digit in H. unfold Py.is_space.
  repeat split;
    repeat (rewrite ?orb_false_iff, ?andb_false_iff, ?Z.eqb_neq, ?Z.leb_gt);
    lia.
Qed.

Lemma scan_plain (s : list Z) :
  Forall (plain_digit base dv) s -> forall acc n,
  Py.scan_digits base s false acc n
  = Some (fold_left (fun a c => base * a + dv c) s acc, (n + length s)%nat, []).
Proof.
  induction 1 as [| c s Hc Hs IH]; intros acc n; simpl.
  - now rewrite Nat.add_0_r.
  - destruct (plain_digit_not_special c Hc) as (-> & _).
    destruct Hc as [_ ->]. rewrite IH. now rewrite Nat.add_succ_r.
Qed.

Lemma int_plain (s : list Z) :
  s <> [] -> Forall (plain_digit base dv) s ->
  Py.int s base = Some (fold_left (fun a c => base * a + dv c) s 0).
Proof.
  intros Hne Hs. destruct s as [| c s]; [congruence |].
  pose proof (Forall_inv Hs) as Hc.
  destruct (plain_digit_not_special c Hc) as (E95 & Esp & E43 & E45 & _).
  unfold Py.int. simpl Py.drop_space. rewrite Esp.
  unfold Py.strip_sign. rewrite E43, E45.
  assert (Hp : Py.strip_prefix base (c :: s) = c :: s).
  { unfold Py.strip_prefix. destruct s as [| c2 s]; [reflexivity |].
    pose proof (Forall_inv (Forall_inv_tail Hs)) as Hc2.
    destruct (plain_digit_not_special c2 Hc2) as (_ & _ & _ & _ & -> & ->).
    now rewrite andb_false_r. }
  rewrite Hp. unfold Py.starts_with_underscore. rewrite E95.
  rewrite (scan_plain (c :: s) Hs). reflexivity.
Qed.

End Numerals.

Lemma hex_digit_plain (c : Z) :
  is_hex_digit c -> plain_digit 16 hex_digit_value c.
Proof.
  intros H. split; [exact H |].
  unfold Py.digit_in, Py.digit_value, hex_digit_value.
  destruct H as [H | [H | H]].
  - replace ((48 <=? c) && (c <=? 57)) with true
      by (symmetry; apply andb_true_iff; rewrite !Z.leb_le; lia).
    replace (c - 48 <? 16) with true by (symmetry; apply Z.ltb_lt; lia).
    replace (c <=? 57) with true by (symmetry; apply Z.leb_le; lia).
    reflexivity.
  - replace ((48 <=? c) && (c <=? 57)) with false
      by (symmetry; apply andb_false_iff; rewrite !Z.leb_gt; lia).
    replace ((97 <=? c) && (c <=? 122)) with true
      by (symmetry; apply andb_true_iff; rewrite !Z.leb_le; lia).
    replace (c - 87 <? 16) with true by (symmetry; apply Z.ltb_lt; lia).
    replace (c <=? 57) with false by (symmetry; apply Z.leb_gt; lia).
    replace (c <=? 70) with false by (symmetry; apply Z.leb_gt; lia).
    reflexivity.
  - replace ((48 <=? c) && (c <=? 57)) with false
      by (symmetry; apply andb_false_iff; rewrite !Z.leb_gt; lia).
    replace ((97 <=? c) && (c <=? 122)) with false
      by (symmetry; apply andb_false_iff; rewrite !Z.leb_gt; lia).
    replace ((65 <=? c) && (c <=? 90)) with true
      by (symmetry; apply andb_true_iff; rewrite !Z.leb_le; lia).
    replace (c - 55 <? 16) with true by (symmetry; apply Z.ltb_lt; lia).
    replace (c <=? 57) with false by (symmetry; apply Z.leb_gt; lia).
    replace (c <=? 70) with true by (symmetry; apply Z.leb_le; lia).
    reflexivity.
Qed.

Lemma decimal_digit_plain (c : Z) :
  48 <= c <= 57 -> plain_digit 10 (fun c => c - 48) c.
Proof.
  intros H. split; [left; exact H |].
  unfold Py.digit_in, Py.digit_value.
  replace ((48 <=? c) && (c <=? 57)) with true
    by (symmetry; apply andb_true_iff; rewrite !Z.leb_le; lia).
  replace (c - 48 <? 10) with true by (symmetry; apply Z.ltb_lt; lia).
  reflexivity.
Qed.

(** [int(s, 16)] of a non-empty string of hexadecimal digits is its value. *)
Lemma int_hex (s : list Z) :
  s <> [] -> Forall is_hex_digit s -> Py.int s 16 = Some (hex_value s).
Proof.
  intros Hne Hs. apply int_plain; [exact Hne |].
  eapply Forall_impl; [| exact Hs]. exact hex_digit_plain.
Qed.

(** [int(s)] of a non-empty string of decimal digits is its value. *)
Lemma int_decimal (s : list Z) :
  s <> [] -> Forall (fun c => 48 <= c <= 57) s ->
  Py.int s 10 = Some (decimal_value s).
Proof.
  intros Hne Hs. apply (int_plain 10 (fun c => c - 48)); [exact Hne |].
  eapply Forall_impl; [| exact Hs]. exact decimal_digit_plain.
Qed.

Lemma isdigit_iff (s : list Z) :
  Py.isdigit s = true <-> s <> [] /\ Forall (fun c => 48 <= c <= 57) s.
Proof.
  destruct s as [| c s]; simpl.
  - split; [discriminate | intros [H _]; congruence].
  - change ((Py.is_decimal_digit c && forallb Py.is_decimal_digit s))
      with (forallb Py.is_decimal_digit (c :: s)).
    rewrite forallb_forall, Forall_forall. split.
    + intros H. split; [discriminate |]. intros x Hx. specialize (H x Hx).
      unfold Py.is_decimal_digit in H. apply andb_true_iff in H.
      rewrite !Z.leb_le in H. exact H.
    + intros [_ H] x Hx. specialize (H x Hx). unfold Py.is_decimal_digit.
      apply andb_true_iff. rewrite !Z.leb_le. exact H.
Qed.

(** Every character of a string that [int(s, 16)] accepts is a character of
    a numeral. *)

Lemma space_numeral_char (c : Z) : Py.is_space c = true -> numeral_char c.
Proof.
  unfold Py.is_space, numeral_char.
  rewrite orb_true_iff, andb_true_iff, Z.eqb_eq, !Z.leb_le. tauto.
Qed.

Lemma digit_in_16_hex (c d : Z) : Py.digit_in 16 c = Some d -> is_hex_digit c.
Proof.
  unfold Py.digit_in, Py.digit_value, is_hex_digit.
  destruct ((48 <=? c) && (c <=? 57)) eqn:E1.
  - apply andb_true_iff in E1. rewrite !Z.leb_le in E1. intros _. lia.
  - destruct ((97 <=? c) && (c <=? 122)) eqn:E2.
    + apply andb_true_iff in E2. rewrite !Z.leb_le in E2.
      destruct (c - 87 <? 16) eqn:E; [| discriminate].
      apply Z.ltb_lt in E. intros _. lia.
    + destruct ((65 <=? c) && (c <=? 90)) eqn:E3; [| discriminate].
      apply andb_true_iff in E3. rewrite !Z.leb_le in E3.
      destruct (c - 55 <? 16) eqn:E; [| discriminate].
      apply Z.ltb_lt in E. intros _. lia.
Qed.

Lemma drop_space_chars (s : list Z) :
  Forall numeral_char (Py.drop_space s) -> Forall numeral_char s.
Proof.
  induction s as [| c s IH]; simpl; [auto |].
  destruct (Py.is_space c) eqn:E; [| auto].
  intros H. constructor; [now apply space_numeral_char | auto].
Qed.

Lemma drop_space_nil (s : list Z) :
  Py.drop_space s = [] -> Forall numeral_char s.
Proof.
  intros H. apply drop_space_chars. rewrite H. constructor.
Qed.

Lemma strip_sign_chars (s : list Z) :
  Forall numeral_char (snd (Py.strip_sign s)) -> Forall numeral_char s.
Proof.
  destruct s as [| c s]; simpl; [auto |].
  destruct (c =? 43) eqn:E1; [apply Z.eqb_eq in E1 |].
  { simpl. intros H. constructor; [unfold numeral_char; tauto | exact H]. }
  destruct (c =? 45) eqn:E2; [apply Z.eqb_eq in E2 | auto].
  simpl. intros H. constructor; [unfold numeral_char; tauto | exact H].
Qed.

Lemma strip_prefix_chars (s : list Z) :
  Forall numeral_char (Py.strip_prefix 16 s) -> Forall numeral_char s.
Proof.
  destruct s as [| z [| c t]]; simpl; auto.
  destruct (z =? 48) eqn:Ez; [| auto].
  destruct ((c =? 120) || (c =? 88)) eqn:Ec; [| auto].
  apply Z.eqb_eq in Ez. apply orb_true_iff in Ec. rewrite !Z.eqb_eq in Ec.
  intros H.
  assert (Ht : Forall numeral_char t).
  { destruct t as [| c' t']; [constructor |].
    destruct (c' =? 95) eqn:E'; [| exact H].
    apply Z.eqb_eq in E'. constructor; [unfold numeral_char; tauto | exact H]. }
  constructor; [unfold numeral_char, is_hex_digit; lia |].
  constructor; [unfold numeral_char; tauto | exact Ht].
Qed.

Lemma scan_chars (s : list Z) : forall p acc n v m rest,
  Py.scan_digits 16 s p acc n = Some (v, m, rest) ->
  Forall numeral_char rest -> Forall numeral_char s.
Proof.
  induction s as [| c s IH]; intros p acc n v m rest; simpl; [constructor |].
  destruct (c =? 95) eqn:E.
  - apply Z.eqb_eq in E. destruct p; [discriminate |].
    intros H Hr. constructor; [unfold numeral_char; tauto | eauto].
  - destruct (Py.digit_in 16 c) as [d |] eqn:Ed.
    + intros H Hr. apply digit_in_16_hex in Ed.
      constructor; [unfold numeral_char; tauto | eauto].
    + destruct p; [discriminate |]. intros H Hr.
      injection H as _ _ <-. exact Hr.
Qed.

Lemma int_16_chars (b : list Z) (v : Z) :
  Py.int b 16 = Some v -> Forall numeral_char b.
Proof.
  unfold Py.int. intros H. apply drop_space_chars, strip_sign_chars.
  destruct (Py.strip_sign (Py.drop_space b)) as [neg s2]. simpl.
  apply strip_prefix_chars.
  destruct (Py.starts_with_underscore (Py.strip_prefix 16 s2)); [discriminate |].
  destruct (Py.scan_digits 16 (Py.strip_prefix 16 s2) false 0 0)
    as [[[w m] rest] |] eqn:Es; [| discriminate].
  destruct m; [discriminate |].
  destruct (Py.drop_space rest) eqn:Er; [| discriminate].
  eapply scan_chars; [exact Es | now apply drop_space_nil].
Qed.

(** A string with a character that no numeral contains is refused. *)
Lemma int_16_refuses (b : list Z) (c : Z) :
  In c b -> ~ numeral_char c -> Py.int b 16 = None.
Proof.
  intros Hin Hc. destruct (Py.int b 16) as [v |] eqn:E; [| reflexivity].
  apply int_16_chars in E. rewrite Forall_forall in E.
  exfalso. apply Hc. now apply E.
Qed.

(** ** Queries and decoding *)

Lemma bind_ret_r {A : Type} (m : M A) (u : UART) :
  bind m (fun a => ret a) u = m u.
Proof. unfold bind, ret. destruct (m u) as [[a | e] u']; reflexivity. Qed.

Lemma read_bytes_eq (u : UART) :
  Player.read_bytes u
  = let b := firstn 4 (rx u) in
    let u' := mkUART (skipn 4 (rx u)) (tx u) (device u) (console u ++ [b]) in
    match b with
    | [] => (Return (-1), u')
    | _ :: _ =>
        match Py.int b 16 with
        | Some v => (Return v, u')
        | None => (Raise Py.ValueError, u')
        end
    end.
Proof.
  unfold Player.read_bytes, bind, uart_read, print, to_int. cbv zeta.
  destruct (firstn 4 (rx u)) as [| c t] eqn:E; [reflexivity |].
  change (Py.len (c :: t) >? 0) with true. cbv iota.
  destruct (Py.int (c :: t) 16); reflexivity.
Qed.

(** A numeric query sends its opcode and returns what [read_bytes] makes of
    the reply. *)
Lemma query_eq (op : Z) (d : Z) (u : UART) :
  0 <= op <= 255 ->
  bind (Player.write_bytes [op])
       (fun _ => bind (Time.sleep d)
                      (fun _ => bind Player.read_bytes (fun x => ret x))) u
  = Player.read_bytes (after_write [0x7E; 0x02; op; 0xEF] u).
Proof.
  intros H. rewrite (bind_Return _ _ _ _ _ (write_opcode op u H)).
  unfold Time.sleep. rewrite (bind_Return _ _ _ tt _ eq_refl).
  apply bind_ret_r.
Qed.

Lemma generic_query_eq (g : M Z) (op : Z) (u : UART) :
  In (g, op) generic_queries ->
  g u = Player.read_bytes (after_write [0x7E; 0x02; op; 0xEF] u).
Proof.
  unfold generic_queries. simpl.
  intros H.
  repeat (destruct H as [H | H];
          [injection H as <- <-; try (apply query_eq; lia) |]);
    try contradiction.
  unfold Player.get_folder_count. simpl.
  rewrite (bind_Return _ _ _ _ _ (write_opcode 0x53 u ltac:(lia))).
  apply bind_ret_r.
Qed.

Lemma get_file_index_builtin_eq (u : UART) :
  Player.get_file_index Player.SRC_BUILTIN u
  = bind Player.read_bytes (fun count => ret (count + 1))
         (after_write [0x7E; 0x02; 0x4D; 0xEF] u).
Proof.
  unfold Player.get_file_index. simpl.
  rewrite (bind_Return _ _ _ _ _ (write_opcode 0x4D u ltac:(lia))).
  reflexivity.
Qed.

Lemma decoded_eq (r : list Z) (u : UART) :
  rx u = r -> fst (Player.read_bytes u) = decoded r.
Proof.
  intros <-. unfold decoded. rewrite !read_bytes_eq. cbv zeta. cbn [rx].
  destruct (firstn 4 (rx u)); [reflexivity |].
  destruct (Py.int _ 16); reflexivity.
Qed.

Lemma read_bytes_tx (u : UART) : tx (snd (Player.read_bytes u)) = tx u.
Proof.
  rewrite read_bytes_eq. cbv zeta.
  destruct (firstn 4 (rx u)); [reflexivity |].
  destruct (Py.int _ 16); reflexivity.
Qed.

Lemma get_status_eq (u : UART) :
  Player.get_status u
  = ((if Py.isdigit (next_reply u)
      then match Py.int (next_reply u) 10 with
           | Some v => Return v
           | None => Raise Py.ValueError
           end
      else Return (-1)),
     mkUART [] (tx u ++ [[0x7E; 0x02; 0x42; 0xEF]]) (tl (device u)) (console u)).
Proof.
  unfold Player.get_status.
  rewrite (bind_Return _ _ _ _ _ (write_opcode 0x42 u ltac:(lia))).
  unfold Time.sleep, bind, ret, uart_read_all, after_write, next_reply, to_int.
  cbn [rx tx device console].
  destruct (Py.isdigit (hd [] (device u))); [| reflexivity].
  destruct (Py.int _ 10); reflexivity.
Qed.

Lemma get_status_value (u : UART) :
  (next_reply u <> [] -> Forall (fun c => 48 <= c <= 57) (next_reply u) ->
   fst (Player.get_status u) = Return (decimal_value (next_reply u))) /\
  (~ (next_reply u <> [] /\ Forall (fun c => 48 <= c <= 57) (next_reply u)) ->
   fst (Player.get_status u) = Return (-1)).
Proof.
  rewrite get_status_eq. cbn [fst].
  destruct (Py.isdigit (next_reply u)) eqn:E.
  - apply isdigit_iff in E. destruct E as [Hne Hd].
    rewrite (int_decimal _ Hne Hd). tauto.
  - split; [| reflexivity].
    intros Hne Hd. assert (H : Py.isdigit (next_reply u) = true)
      by (apply isdigit_iff; tauto).
    congruence.
Qed.

Lemma get_status_returns (u : UART) :
  exists s,
    Player.get_status u
    = (Return s,
       mkUART [] (tx u ++ [[0x7E; 0x02; 0x42; 0xEF]]) (tl (device u))
              (console u)).
Proof.
  rewrite get_status_eq.
  destruct (Py.isdigit (next_reply u)) eqn:E; [| eauto].
  apply isdigit_iff in E. destruct E as [Hne Hd].
  rewrite (int_decimal _ Hne Hd). eauto.
Qed.

(** C2, as the code has it: [read_bytes] takes at most 4 of the bytes
    received; nothing received gives the sentinel -1; a non-empty string of
    hexadecimal digits gives its base-16 value, and more generally whatever
    [int(b, 16)] accepts gives its value; a non-empty string that
    [int(b, 16)] refuses, such as one with a character that belongs to no
    numeral, raises [ValueError] and is not turned into -1.  Every generic
    numeric query returns what [read_bytes] makes of the reply to its
    frame. *)
Theorem read_bytes_decoding (u : UART) :
  (firstn 4 (rx u) = [] -> fst (Player.read_bytes u) = Return (-1)) /\
  (firstn 4 (rx u) <> [] -> Forall is_hex_digit (firstn 4 (rx u)) ->
   fst (Player.read_bytes u) = Return (hex_value (firstn 4 (rx u)))) /\
  (firstn 4 (rx u) <> [] -> forall v, Py.int (firstn 4 (rx u)) 16 = Some v ->
   fst (Player.read_bytes u) = Return v) /\
  (firstn 4 (rx u) <> [] -> Py.int (firstn 4 (rx u)) 16 = None ->
   fst (Player.read_bytes u) = Raise Py.ValueError) /\
  (forall c, In c (firstn 4 (rx u)) -> ~ numeral_char c ->
   fst (Player.read_bytes u) = Raise Py.ValueError) /\
  (forall g op, In (g, op) generic_queries ->
   g u = Player.read_bytes (after_write [0x7E; 0x02; op; 0xEF] u)).
Proof.
  rewrite read_bytes_eq. cbv zeta.
  destruct (firstn 4 (rx u)) as [| c t] eqn:E.
  - repeat split; try congruence; try (intros; now apply generic_query_eq).
    intros c []. 
  - split; [discriminate |].
    split.
    { intros Hne Hh. now rewrite (int_hex _ Hne Hh). }
    split.
    { intros _ v ->. reflexivity. }
    split.
    { intros _ ->. reflexivity. }
    split.
    { intros x Hin Hx. now rewrite (int_16_refuses _ _ Hin Hx). }
    intros g op Hg. now apply generic_query_eq.
Qed.

(** C3, as the code has it: construction with an initial volume outside
    0..30 fails with [AssertionError], after the reset frame has been written
    to the link and before any set-volume frame; with a volume in range the
    reset frame and the set-volume frame are written, in this order. *)
Theorem init_volume_check (volume : Z) (u : UART) :
  (~ 0 <= volume <= 30 ->
   fst (Player.init volume u) = Raise Py.AssertionError /\
   tx (snd (Player.init volume u)) = tx u ++ [[0x7E; 0x02; 0x0C; 0xEF]]) /\
  (0 <= volume <= 30 ->
   fst (Player.init volume u) = Return tt /\
   tx (snd (Player.init volume u))
   = tx u ++ [[0x7E; 0x02; 0x0C; 0xEF]; [0x7E; 0x03; 0x06; volume; 0xEF]]).
Proof.
  unfold Player.init.
  rewrite (bind_Return uart_read_all _ u (rx u)
             (mkUART [] (tx u) (device u) (console u)) eq_refl).
  rewrite (bind_Return _ _ _ _ _ (reset_ok _)).
  split; intros H.
  - rewrite set_volume_bad by exact H. split; reflexivity.
  - rewrite set_volume_ok by exact H. split; [reflexivity |].
    simpl. now rewrite <- app_assoc.
Qed.

(** C4: [set_volume(L)] with 0 <= L <= 30 writes exactly the frame
    [0x7E, 0x03, 0x06, L, 0xEF]; with L outside 0..30 it fails with
    [AssertionError] and leaves the link untouched, so no frame is written. *)
Theorem set_volume_frame (level : Z) (u : UART) :
  (0 <= level <= 30 ->
   fst (Player.set_volume level u) = Return tt /\
   tx (snd (Player.set_volume level u))
   = tx u ++ [[0x7E; 0x03; 0x06; level; 0xEF]]) /\
  (~ 0 <= level <= 30 ->
   Player.set_volume level u = (Raise Py.AssertionError, u)).
Proof.
  split; intros H.
  - rewrite set_volume_ok by exact H. split; reflexivity.
  - now apply set_volume_bad.
Qed.

(** C5: [get_status] sends the frame of opcode 0x42 and returns the reply
    read as a decimal integer when the reply is a non-empty string of decimal
    digits (the reply "5" gives 5), and -1 for every other reply, the empty
    one included; it returns in every case and never raises. *)
Theorem get_status_decoding (u : UART) :
  (next_reply u <> [] -> Forall (fun c => 48 <= c <= 57) (next_reply u) ->
   fst (Player.get_status u) = Return (decimal_value (next_reply u))) /\
  (~ (next_reply u <> [] /\ Forall (fun c => 48 <= c <= 57) (next_reply u)) ->
   fst (Player.get_status u) = Return (-1)) /\
  (next_reply u = [53] -> fst (Player.get_status u) = Return 5) /\
  (exists s, fst (Player.get_status u) = Return s) /\
  tx (snd (Player.get_status u)) = tx u ++ [[0x7E; 0x02; 0x42; 0xEF]].
Proof.
  destruct (get_status_value u) as [Hd Hn].
  destruct (get_status_returns u) as [s Hs].
  split; [exact Hd |]. split; [exact Hn |]. split; [| split].
  - intros H5. rewrite Hd; rewrite H5; [reflexivity | discriminate |].
    constructor; [lia | constructor].
  - exists s. now rewrite Hs.
  - now rewrite Hs.
Qed.

Lemma query_result (f : list Z) (u : UART) (V : Z) :
  decoded (next_reply u) = Return V ->
  exists u', Player.read_bytes (after_write f u) = (Return V, u')
             /\ tx u' = tx u ++ [f].
Proof.
  intros H.
  pose proof (decoded_eq (next_reply u) (after_write f u) eq_refl) as Hd.
  pose proof (read_bytes_tx (after_write f u)) as Ht.
  destruct (Player.read_bytes (after_write f u)) as [r u'].
  simpl in Hd, Ht. exists u'. split; [| exact Ht]. congruence.
Qed.

Lemma file_index_builtin_result (u : UART) (V : Z) :
  decoded (next_reply u) = Return V ->
  exists u', Player.get_file_index Player.SRC_BUILTIN u = (Return (V + 1), u')
             /\ tx u' = tx u ++ [[0x7E; 0x02; 0x4D; 0xEF]].
Proof.
  intros H.
  destruct (query_result [0x7E; 0x02; 0x4D; 0xEF] u V H) as (u1 & E1 & T1).
  exists u1. split; [| exact T1].
  now rewrite get_file_index_builtin_eq, (bind_Return _ _ _ _ _ E1).
Qed.

(** C6: when the reply to the query decodes to V, [get_file_index] returns
    V + 1 for the built-in flash (opcode 0x4D), as for every source other
    than the SD card, and V unchanged for the SD card (opcode 0x4B). *)
Theorem get_file_index_offset (u : UART) (V : Z) :
  decoded (next_reply u) = Return V ->
  fst (Player.get_file_index Player.SRC_BUILTIN u) = Return (V + 1) /\
  tx (snd (Player.get_file_index Player.SRC_BUILTIN u))
  = tx u ++ [[0x7E; 0x02; 0x4D; 0xEF]] /\
  fst (Player.get_file_index Player.SRC_SDCARD u) = Return V /\
  tx (snd (Player.get_file_index Player.SRC_SDCARD u))
  = tx u ++ [[0x7E; 0x02; 0x4B; 0xEF]] /\
  (forall source, source <> Player.SRC_SDCARD ->
   Player.get_file_index source u
   = Player.get_file_index Player.SRC_BUILTIN u).
Proof.
  intros H.
  destruct (file_index_builtin_result u V H) as (u1 & E1 & T1).
  destruct (query_result [0x7E; 0x02; 0x4B; 0xEF] u V H) as (u2 & E2 & T2).
  rewrite (generic_query_eq (Player.get_file_index Player.SRC_SDCARD) 0x4B u)
    by (simpl; tauto).
  rewrite E1, E2. repeat split; auto.
  intros source Hs. unfold Player.get_file_index.
  apply Z.eqb_neq in Hs. now rewrite Hs.
Qed.

(** C7: [get_folder_count] returns 0 and leaves the link exactly as it was,
    so no frame is written, for the built-in flash and for every source other
    than the SD card; for the SD card it writes the frame of opcode 0x53. *)
Theorem get_folder_count_builtin (u : UART) :
  Player.get_folder_count Player.SRC_BUILTIN u = (Return 0, u) /\
  (forall source, source <> Player.SRC_SDCARD ->
   Player.get_folder_count source u = (Return 0, u)) /\
  tx (snd (Player.get_folder_count Player.SRC_SDCARD u))
  = tx u ++ [[0x7E; 0x02; 0x53; 0xEF]].
Proof.
  split; [reflexivity |]. split.
  - intros source Hs. unfold Player.get_folder_count.
    apply Z.eqb_neq in Hs. now rewrite Hs.
  - rewrite (generic_query_eq _ 0x53 u) by (simpl; tauto).
    now rewrite read_bytes_tx.
Qed.

Lemma restart_after_query (v : Z) (u1 : UART) :
  (0 <= v <= 30 ->
   fst ((Player.set_volume 0 ;; Player.next ;; Player.pause ;;
         Player.set_volume v ;; Player.prev) u1) = Return tt /\
   tx (snd ((Player.set_volume 0 ;; Player.next ;; Player.pause ;;
             Player.set_volume v ;; Player.prev) u1))
   = tx u1 ++ [[0x7E; 0x03; 0x06; 0x00; 0xEF]; [0x7E; 0x02; 0x01; 0xEF];
               [0x7E; 0x02; 0x0E; 0xEF]; [0x7E; 0x03; 0x06; v; 0xEF];
               [0x7E; 0x02; 0x02; 0xEF]]) /\
  (~ 0 <= v <= 30 ->
   fst ((Player.set_volume 0 ;; Player.next ;; Player.pause ;;
         Player.set_volume v ;; Player.prev) u1) = Raise Py.AssertionError /\
   tx (snd ((Player.set_volume 0 ;; Player.next ;; Player.pause ;;
             Player.set_volume v ;; Player.prev) u1))
   = tx u1 ++ [[0x7E; 0x03; 0x06; 0x00; 0xEF]; [0x7E; 0x02; 0x01; 0xEF];
               [0x7E; 0x02; 0x0E; 0xEF]]).
Proof.
  rewrite (bind_Return _ _ _ _ _ (set_volume_ok 0 u1 ltac:(lia))).
  unfold Player.next, Player.pause, Player.prev.
  rewrite (bind_Return _ _ _ _ _ (write_opcode 0x01 _ ltac:(lia))).
  rewrite (bind_Return _ _ _ _ _ (write_opcode 0x0E _ ltac:(lia))).
  split; intros H.
  - rewrite (bind_Return _ _ _ _ _ (set_volume_ok v _ H)).
    rewrite write_opcode by lia. split; [reflexivity |].
    simpl. now rewrite <- !app_assoc.
  - rewrite (bind_Raise _ _ _ _ _ (set_volume_bad v _ H)).
    split; [reflexivity |]. simpl. now rewrite <- !app_assoc.
Qed.

(** When the reply to the volume query (opcode 0x43) decodes to a volume v
    in 0..30, [restart] returns and writes, after the query, exactly five
    frames in this order: SetVolume(0), Next, Pause, SetVolume(v), Prev, with
    the v that the query returned. *)
Theorem restart_restores_volume (u : UART) (v : Z) :
  decoded (next_reply u) = Return v -> 0 <= v <= 30 ->
  fst (Player.restart u) = Return tt /\
  tx (snd (Player.restart u))
  = tx u ++ [[0x7E; 0x02; 0x43; 0xEF];
             [0x7E; 0x03; 0x06; 0x00; 0xEF]; [0x7E; 0x02; 0x01; 0xEF];
             [0x7E; 0x02; 0x0E; 0xEF]; [0x7E; 0x03; 0x06; v; 0xEF];
             [0x7E; 0x02; 0x02; 0xEF]].
Proof.
  intros Hv Hr. unfold Player.restart.
  destruct (query_result [0x7E; 0x02; 0x43; 0xEF] u v Hv) as (u1 & E1 & T1).
  rewrite <- (generic_query_eq Player.get_volume 0x43 u) in E1
    by (simpl; tauto).
  rewrite (bind_Return _ _ _ _ _ E1).
  destruct (restart_after_query v u1) as [(Hf & Ht) _]; [exact Hr |].
  rewrite Hf, Ht, T1. split; [reflexivity |]. now rewrite <- app_assoc.
Qed.

(** C9: [play_pause] first sends the status query (opcode 0x42), which
    always yields a status s.  With s = 2 (paused) or s = 0 (stopped) it then
    sends exactly one Play frame (0x0D) and no Pause frame; with s = 1
    (playing) exactly one Pause frame (0x0E) and no Play frame; with any
    other s, the sentinel -1 included, it sends nothing more. *)
Theorem play_pause_frames (u : UART) :
  exists s, fst (Player.get_status u) = Return s /\
  fst (Player.play_pause u) = Return tt /\
  (s = Player.STATUS_PAUSED \/ s = Player.STATUS_STOPPED ->
   tx (snd (Player.play_pause u))
   = tx u ++ [[0x7E; 0x02; 0x42; 0xEF]; [0x7E; 0x02; 0x0D; 0xEF]]) /\
  (s = Player.STATUS_PLAYING ->
   tx (snd (Player.play_pause u))
   = tx u ++ [[0x7E; 0x02; 0x42; 0xEF]; [0x7E; 0x02; 0x0E; 0xEF]]) /\
  (s <> Player.STATUS_PAUSED -> s <> Player.STATUS_STOPPED ->
   s <> Player.STATUS_PLAYING ->
   tx (snd (Player.play_pause u)) = tx u ++ [[0x7E; 0x02; 0x42; 0xEF]]).
Proof.
  destruct (get_status_returns u) as [s E].
  exists s. split; [now rewrite E |].
  unfold Player.play_pause. rewrite (bind_Return _ _ _ _ _ E).
  set (u1 := mkUART [] (tx u ++ [[0x7E; 0x02; 0x42; 0xEF]]) (tl (device u))
                    (console u)).
  assert (Ht : tx u1 = tx u ++ [[0x7E; 0x02; 0x42; 0xEF]]) by reflexivity.
  clearbody u1.
  unfold Player.play, Player.pause, Player.STATUS_PAUSED,
    Player.STATUS_STOPPED, Player.STATUS_PLAYING.
  destruct (s =? 2) eqn:E2; [apply Z.eqb_eq in E2 | apply Z.eqb_neq in E2];
  destruct (s =? 0) eqn:E0; [apply Z.eqb_eq in E0 | apply Z.eqb_neq in E0 |
                             apply Z.eqb_eq in E0 | apply Z.eqb_neq in E0];
  cbn [orb]; try lia;
  try (rewrite write_opcode by lia; cbn [fst snd after_write tx];
       rewrite Ht, <- app_assoc; repeat split; try reflexivity; lia).
  destruct (s =? 1) eqn:E1; [apply Z.eqb_eq in E1 | apply Z.eqb_neq in E1].
  - rewrite write_opcode by lia. cbn [fst snd after_write tx].
    rewrite Ht, <- app_assoc. repeat split; try reflexivity; lia.
  - cbn [ret fst snd]. rewrite Ht. repeat split; try reflexivity; lia.
Qed.

(** C10, as the code has it: [get_file_index] for the built-in flash with an
    empty reply returns 0, not -1, because the offset +1 is applied to the
    sentinel too; the result is the same as for a reply that decodes to -1,
    while a reply that decodes to 0 gives 1. *)
Theorem get_file_index_builtin_absent (u : UART) :
  next_reply u = [] ->
  fst (Player.get_file_index Player.SRC_BUILTIN u) = Return 0 /\
  decoded (next_reply u) = Return (-1) /\
  (forall u', decoded (next_reply u') = Return (-1) ->
   fst (Player.get_file_index Player.SRC_BUILTIN u')
   = fst (Player.get_file_index Player.SRC_BUILTIN u)) /\
  (forall u', decoded (next_reply u') = Return 0 ->
   fst (Player.get_file_index Player.SRC_BUILTIN u') = Return 1).
Proof.
  intros H.
  assert (Hd : decoded (next_reply u) = Return (-1)) by (now rewrite H).
  destruct (file_index_builtin_result u (-1) Hd) as (u1 & E1 & _).
  rewrite E1. repeat split; auto.
  - intros u' Hd'.
    destruct (file_index_builtin_result u' (-1) Hd') as (u2 & E2 & _).
    now rewrite E2.
  - intros u' Hd'.
    destruct (file_index_builtin_result u' 0 Hd') as (u2 & E2 & _).
    now rewrite E2.
Qed.

(** ** The theorems at concrete device replies *)

(** The frames of [next_folder] (payload 0x0F, 0x01) and of [play]. *)
Lemma write_bytes_frame_witness :
  tx (snd (Player.write_bytes [0x0F; 0x01] (mkUART [] [] [] [])))
  = [[0x7E; 0x03; 0x0F; 0x01; 0xEF]] /\
  tx (snd (Player.write_bytes [0x0D] (mkUART [] [] [] [])))
  = [[0x7E; 0x02; 0x0D; 0xEF]] /\
  hd_error [0x7E; 0x02; 0x0D; 0xEF] = Some 0x7E /\
  last [0x7E; 0x02; 0x0D; 0xEF] 0 = 0xEF.
Proof.
  split; [| split].
  - destruct (write_bytes_frame [0x0F; 0x01] (mkUART [] [] [] [])) as (H & _).
    apply H.
    + intros x [<- | [<- | []]]; lia.
    + simpl. lia.
  - destruct (write_bytes_frame [0x0D] (mkUART [] [] [] [])) as (_ & H & _).
    apply (H 0x0D); [reflexivity | lia].
  - destruct (write_bytes_frame [0x0D] (mkUART [] [] [] []))
      as (_ & _ & H & _).
    apply (H [0x7E; 0x02; 0x0D; 0xEF]). reflexivity.
Defined.

(** Replies "1F" (31), none, "zz", and the volume query. *)
Lemma read_bytes_decoding_witness :
  fst (Player.read_bytes (mkUART [49; 70] [] [] [])) = Return 31 /\
  fst (Player.read_bytes (mkUART [53] [] [] [])) = Return 5 /\
  fst (Player.read_bytes (mkUART [] [] [] [])) = Return (-1) /\
  fst (Player.read_bytes (mkUART [122; 122] [] [] [])) = Raise Py.ValueError /\
  fst (Player.read_bytes (mkUART [49; 122] [] [] [])) = Raise Py.ValueError /\
  Player.get_volume (mkUART [] [] [[49; 70]] [])
  = Player.read_bytes
      (after_write [0x7E; 0x02; 0x43; 0xEF] (mkUART [] [] [[49; 70]] [])).
Proof.
  split; [| split; [| split; [| split; [| split]]]].
  - destruct (read_bytes_decoding (mkUART [49; 70] [] [] [])) as (_ & H & _).
    apply H; [discriminate |].
    repeat constructor; unfold is_hex_digit; lia.
  - destruct (read_bytes_decoding (mkUART [53] [] [] []))
      as (_ & _ & H & _).
    apply H; [discriminate | reflexivity].
  - destruct (read_bytes_decoding (mkUART [] [] [] [])) as (H & _).
    apply H. reflexivity.
  - destruct (read_bytes_decoding (mkUART [122; 122] [] [] []))
      as (_ & _ & _ & H & _).
    apply H; [discriminate | reflexivity].
  - destruct (read_bytes_decoding (mkUART [49; 122] [] [] []))
      as (_ & _ & _ & _ & H & _).
    apply (H 122); [simpl; tauto |].
    unfold numeral_char, is_hex_digit. lia.
  - destruct (read_bytes_decoding (mkUART [] [] [[49; 70]] []))
      as (_ & _ & _ & _ & _ & H).
    apply H. simpl. tauto.
Defined.

(** The reply "zz" is not empty and is no numeral: [read_bytes], and with it
    [get_volume], raises [ValueError] where the claim has -1. *)
Lemma read_bytes_non_numeric_raises :
  fst (Player.read_bytes (mkUART [122; 122] [] [] [])) = Raise Py.ValueError /\
  fst (Player.read_bytes (mkUART [122; 122] [] [] [])) <> Return (-1) /\
  fst (Player.get_volume (mkUART [] [] [[122; 122]] [])) = Raise Py.ValueError.
Proof.
  split; [reflexivity |]. split; [discriminate | reflexivity].
Qed.

(** Volumes 35 and 20 on a fresh link. *)
Lemma init_volume_check_witness :
  (fst (Player.init 35 (mkUART [] [] [] [])) = Raise Py.AssertionError /\
   tx (snd (Player.init 35 (mkUART [] [] [] []))) = [[0x7E; 0x02; 0x0C; 0xEF]]) /\
  (fst (Player.init 20 (mkUART [] [] [] [])) = Return tt /\
   tx (snd (Player.init 20 (mkUART [] [] [] [])))
   = [[0x7E; 0x02; 0x0C; 0xEF]; [0x7E; 0x03; 0x06; 20; 0xEF]]).
Proof.
  split.
  - destruct (init_volume_check 35 (mkUART [] [] [] [])) as (H & _).
    apply H. lia.
  - destruct (init_volume_check 20 (mkUART [] [] [] [])) as (_ & H).
    apply H. lia.
Defined.

(** Construction with volume 35 on a fresh link: the reset frame is on the
    link when the assertion fails, so the link's output is not what it was. *)
Lemma init_35_resets_before_failing :
  fst (Player.init 35 (mkUART [] [] [] [])) = Raise Py.AssertionError /\
  tx (snd (Player.init 35 (mkUART [] [] [] []))) = [[0x7E; 0x02; 0x0C; 0xEF]] /\
  tx (snd (Player.init 35 (mkUART [] [] [] []))) <> tx (mkUART [] [] [] []).
Proof.
  split; [reflexivity |]. split; [reflexivity | discriminate].
Qed.

(** Levels 15 and 31. *)
Lemma set_volume_frame_witness :
  (fst (Player.set_volume 15 (mkUART [] [] [] [])) = Return tt /\
   tx (snd (Player.set_volume 15 (mkUART [] [] [] [])))
   = [[0x7E; 0x03; 0x06; 15; 0xEF]]) /\
  Player.set_volume 31 (mkUART [] [] [] [])
  = (Raise Py.AssertionError, mkUART [] [] [] []).
Proof.
  split.
  - destruct (set_volume_frame 15 (mkUART [] [] [] [])) as (H & _).
    apply H. lia.
  - destruct (set_volume_frame 31 (mkUART [] [] [] [])) as (_ & H).
    apply H. lia.
Defined.

(** Status replies "12", "5" and "?". *)
Lemma get_status_decoding_witness :
  fst (Player.get_status (mkUART [] [] [[49; 50]] [])) = Return 12 /\
  fst (Player.get_status (mkUART [] [] [[53]] [])) = Return 5 /\
  fst (Player.get_status (mkUART [] [] [[63]] [])) = Return (-1).
Proof.
  split; [| split].
  - destruct (get_status_decoding (mkUART [] [] [[49; 50]] [])) as (H & _).
    apply H; [discriminate |]. repeat constructor; lia.
  - destruct (get_status_decoding (mkUART [] [] [[53]] []))
      as (_ & _ & H & _).
    apply H. reflexivity.
  - destruct (get_status_decoding (mkUART [] [] [[63]] [])) as (_ & H & _).
    apply H. intros [_ F]. apply Forall_inv in F. lia.
Defined.

(** The reply "1A" decodes to 26. *)
Lemma get_file_index_offset_witness :
  decoded (next_reply (mkUART [] [] [[49; 65]] [])) = Return 26 /\
  fst (Player.get_file_index Player.SRC_BUILTIN (mkUART [] [] [[49; 65]] []))
  = Return 27 /\
  fst (Player.get_file_index Player.SRC_SDCARD (mkUART [] [] [[49; 65]] []))
  = Return 26.
Proof.
  split; [reflexivity |].
  destruct (get_file_index_offset (mkUART [] [] [[49; 65]] []) 26 eq_refl)
    as (H1 & _ & H2 & _).
  split; [exact H1 | exact H2].
Defined.

(** Source 4 (built-in flash) is not the SD card. *)
Lemma get_folder_count_builtin_witness :
  Player.get_folder_count 4 (mkUART [7] [] [[49]] [])
  = (Return 0, mkUART [7] [] [[49]] []).
Proof.
  destruct (get_folder_count_builtin (mkUART [7] [] [[49]] [])) as (_ & H & _).
  apply H. unfold Player.SRC_SDCARD. lia.
Defined.

(** The volume reply "14" (20). *)
Lemma restart_restores_volume_witness :
  fst (Player.restart (mkUART [] [] [[49; 52]] [])) = Return tt /\
  tx (snd (Player.restart (mkUART [] [] [[49; 52]] [])))
  = [[0x7E; 0x02; 0x43; 0xEF];
     [0x7E; 0x03; 0x06; 0x00; 0xEF]; [0x7E; 0x02; 0x01; 0xEF];
     [0x7E; 0x02; 0x0E; 0xEF]; [0x7E; 0x03; 0x06; 20; 0xEF];
     [0x7E; 0x02; 0x02; 0xEF]].
Proof.
  apply (restart_restores_volume (mkUART [] [] [[49; 52]] []) 20);
    [reflexivity | lia].
Defined.

(** C8 does not hold of the code when the device leaves the volume query
    unanswered: [get_volume] returns the sentinel -1, [restart] writes the
    query, SetVolume(0), Next and Pause, and then [set_volume(-1)] fails its
    assertion.  The frames SetVolume(v) and Prev never reach the link, and
    the device is left muted, moved to the next file and paused. *)
Lemma restart_silent_device :
  fst (Player.restart (mkUART [] [] [] [])) = Raise Py.AssertionError /\
  tx (snd (Player.restart (mkUART [] [] [] [])))
  = [[0x7E; 0x02; 0x43; 0xEF];
     [0x7E; 0x03; 0x06; 0x00; 0xEF]; [0x7E; 0x02; 0x01; 0xEF];
     [0x7E; 0x02; 0x0E; 0xEF]] /\
  ~ exists v, tx (snd (Player.restart (mkUART [] [] [] [])))
              = [[0x7E; 0x02; 0x43; 0xEF];
                 [0x7E; 0x03; 0x06; 0x00; 0xEF]; [0x7E; 0x02; 0x01; 0xEF];
                 [0x7E; 0x02; 0x0E; 0xEF]; [0x7E; 0x03; 0x06; v; 0xEF];
                 [0x7E; 0x02; 0x02; 0xEF]].
Proof.
  split; [reflexivity |]. split; [reflexivity |].
  intros [v H]. discriminate H.
Qed.

(** Status replies "2", "0", "1" and none. *)
Lemma play_pause_frames_witness :
  tx (snd (Player.play_pause (mkUART [] [] [[50]] [])))
  = [[0x7E; 0x02; 0x42; 0xEF]; [0x7E; 0x02; 0x0D; 0xEF]] /\
  tx (snd (Player.play_pause (mkUART [] [] [[48]] [])))
  = [[0x7E; 0x02; 0x42; 0xEF]; [0x7E; 0x02; 0x0D; 0xEF]] /\
  tx (snd (Player.play_pause (mkUART [] [] [[49]] [])))
  = [[0x7E; 0x02; 0x42; 0xEF]; [0x7E; 0x02; 0x0E; 0xEF]] /\
  tx (snd (Player.play_pause (mkUART [] [] [] [])))
  = [[0x7E; 0x02; 0x42; 0xEF]].
Proof.
  split; [| split; [| split]].
  - destruct (play_pause_frames (mkUART [] [] [[50]] []))
      as (s & Hs & _ & H & _).
    apply H. left. injection Hs as <-. reflexivity.
  - destruct (play_pause_frames (mkUART [] [] [[48]] []))
      as (s & Hs & _ & H & _).
    apply H. right. injection Hs as <-. reflexivity.
  - destruct (play_pause_frames (mkUART [] [] [[49]] []))
      as (s & Hs & _ & _ & H & _).
    apply H. injection Hs as <-. reflexivity.
  - destruct (play_pause_frames (mkUART [] [] [] []))
      as (s & Hs & _ & _ & _ & H).
    injection Hs as <-. apply H; discriminate.
Defined.

(** A device that does not answer the file-index query. *)
Lemma get_file_index_builtin_absent_witness :
  next_reply (mkUART [] [] [] []) = [] /\
  fst (Player.get_file_index Player.SRC_BUILTIN (mkUART [] [] [] []))
  = Return 0.
Proof.
  split; [reflexivity |].
  destruct (get_file_index_builtin_absent (mkUART [] [] [] []) eq_refl)
    as (H & _).
  exact H.
Defined.

(** An absent reply gives 0 and the reply "0" gives 1: the two are told
    apart by the value returned. *)
Lemma file_index_absent_differs_from_zero :
  fst (Player.get_file_index Player.SRC_BUILTIN (mkUART [] [] [[]] []))
  = Return 0 /\
  fst (Player.get_file_index Player.SRC_BUILTIN (mkUART [] [] [[48]] []))
  = Return 1 /\
  fst (Player.get_file_index Player.SRC_BUILTIN (mkUART [] [] [[]] []))
  <> fst (Player.get_file_index Player.SRC_BUILTIN (mkUART [] [] [[48]] [])).
Proof.
  split; [reflexivity |]. split; [reflexivity | discriminate].
Qed.

(** ** Commands with arguments *)

Lemma land_255 (x : Z) : Z.land x 0xFF = x mod 256.
Proof. change 0xFF with (Z.ones 8). now rewrite Z.land_ones by lia. Qed.

Lemma mod_256_byte (x : Z) : 0 <= x mod 256 <= 255.
Proof. pose proof (Z.mod_pos_bound x 256 ltac:(lia)). lia. Qed.

Lemma write_two_args (op a b : Z) (u : UART) :
  0 <= op <= 255 -> 0 <= a <= 255 -> 0 <= b <= 255 ->
  Player.write_bytes [op; a; b] u
  = (Return tt, after_write [0x7E; 0x04; op; a; b; 0xEF] u).
Proof.
  intros Ho Ha Hb. rewrite write_bytes_ok; [reflexivity |].
  apply frame_is_bytes; [| simpl; lia].
  intros x [<- | [<- | [<- | []]]]; assumption.
Qed.

Lemma write_one_arg (op a : Z) (u : UART) :
  0 <= op <= 255 ->
  (0 <= a <= 255 ->
   Player.write_bytes [op; a] u
   = (Return tt, after_write [0x7E; 0x03; op; a; 0xEF] u)) /\
  (~ 0 <= a <= 255 ->
   Player.write_bytes [op; a] u
   = (Raise Py.ValueError, mkUART [] (tx u) (device u) (console u))).
Proof.
  intros Ho. split; intros Ha.
  - rewrite write_bytes_ok; [reflexivity |].
    apply frame_is_bytes; [| simpl; lia].
    intros x [<- | [<- | []]]; assumption.
  - apply write_bytes_bad. apply not_true_is_false. intros H.
    rewrite forallb_forall in H. apply Ha, is_byte_iff, H. simpl. tauto.
Qed.

(** [play_by_index] never raises, whatever the integer it is given: it
    sends the opcode 0x03 with the two low bytes of the index, high byte
    first, so that the device receives the index modulo 65536; indices that
    differ by a multiple of 65536 send the same frame. *)
Theorem play_by_index_frame (file_index : Z) (u : UART) :
  Player.play_by_index file_index u
  = (Return tt,
     after_write [0x7E; 0x04; 0x03; (file_index / 256) mod 256;
                  file_index mod 256; 0xEF] u) /\
  0 <= (file_index / 256) mod 256 <= 255 /\
  0 <= file_index mod 256 <= 255 /\
  256 * ((file_index / 256) mod 256) + file_index mod 256
  = file_index mod 65536 /\
  (forall k, Player.play_by_index (file_index + 65536 * k) u
             = Player.play_by_index file_index u).
Proof.
  assert (E : forall i, Player.play_by_index i u
              = (Return tt,
                 after_write [0x7E; 0x04; 0x03; (i / 256) mod 256;
                              i mod 256; 0xEF] u)).
  { intros i. unfold Player.play_by_index.
    rewrite !land_255, Z.shiftr_div_pow2 by lia. change (2 ^ 8) with 256.
    apply write_two_args; [lia | apply mod_256_byte | apply mod_256_byte]. }
  split; [apply E |].
  split; [apply mod_256_byte |]. split; [apply mod_256_byte |].
  assert (S : forall i, 256 * ((i / 256) mod 256) + i mod 256 = i mod 65536).
  { intros i. change 65536 with (256 * 256).
    rewrite (Z.rem_mul_r i 256 256) by lia. lia. }
  split; [apply S |].
  intros k. rewrite !E.
  assert (Hm : (file_index + 65536 * k) mod 65536 = file_index mod 65536).
  { rewrite (Z.mul_comm 65536 k). apply Z.mod_add. lia. }
  assert (Hl : (file_index + 65536 * k) mod 256 = file_index mod 256).
  { replace (file_index + 65536 * k) with (file_index + (256 * k) * 256) by lia.
    apply Z.mod_add. lia. }
  pose proof (S (file_index + 65536 * k)) as S1. pose proof (S file_index) as S2.
  assert (Hh : ((file_index + 65536 * k) / 256) mod 256
               = (file_index / 256) mod 256) by lia.
  now rewrite Hh, Hl.
Qed.

(** [play_by_number] never raises: it sends the opcode 0x12 with the folder
    number and the file number each reduced modulo 256, so numbers from 0 to
    255 go out unchanged and a larger file number, such as those of the files
    [256.mp3] to [999.mp3] that the docstring allows, goes out as its low
    byte. *)
Theorem play_by_number_frame (folder_number file_number : Z) (u : UART) :
  Player.play_by_number folder_number file_number u
  = (Return tt,
     after_write [0x7E; 0x04; 0x12; folder_number mod 256;
                  file_number mod 256; 0xEF] u) /\
  (0 <= file_number <= 255 -> file_number mod 256 = file_number) /\
  (256 <= file_number <= 999 ->
   file_number mod 256 <> file_number /\
   Player.play_by_number folder_number file_number u
   = Player.play_by_number folder_number (file_number mod 256) u).
Proof.
  assert (E : forall d f, Player.play_by_number d f u
              = (Return tt,
                 after_write [0x7E; 0x04; 0x12; d mod 256; f mod 256; 0xEF] u)).
  { intros d f. unfold Player.play_by_number. rewrite !land_255.
    apply write_two_args; [lia | apply mod_256_byte | apply mod_256_byte]. }
  split; [apply E |]. split.
  - intros H. apply Z.mod_small. lia.
  - intros H. split.
    + pose proof (mod_256_byte file_number). lia.
    + rewrite !E. now rewrite Z.mod_mod by lia.
Qed.

(** [set_equalizer], [set_looping] and [set_source] do not check their
    argument against the modes and sources the class names: any value from 0
    to 255 is sent as it is, after the opcode 0x07, 0x11 or 0x09.  A value
    outside 0..255 makes [bytes] raise [ValueError]: no frame is written,
    but the pending input has already been discarded. *)
Theorem set_mode_frames (x : Z) (u : UART) :
  (0 <= x <= 255 ->
   Player.set_equalizer x u
   = (Return tt, after_write [0x7E; 0x03; 0x07; x; 0xEF] u) /\
   Player.set_looping x u
   = (Return tt, after_write [0x7E; 0x03; 0x11; x; 0xEF] u) /\
   Player.set_source x u
   = (Return tt, after_write [0x7E; 0x03; 0x09; x; 0xEF] u)) /\
  (~ 0 <= x <= 255 ->
   Player.set_equalizer x u
   = (Raise Py.ValueError, mkUART [] (tx u) (device u) (console u)) /\
   Player.set_looping x u
   = (Raise Py.ValueError, mkUART [] (tx u) (device u) (console u)) /\
   Player.set_source x u
   = (Raise Py.ValueError, mkUART [] (tx u) (device u) (console u))).
Proof.
  unfold Player.set_equalizer, Player.set_looping, Player.set_source.
  split; intros H; repeat apply conj;
    solve [ apply write_one_arg; [lia | exact H] ].
Qed.

(** ** Queries and the bytes left on the link *)

Lemma read_bytes_rest (u : UART) :
  rx (snd (Player.read_bytes u)) = skipn 4 (rx u) /\
  device (snd (Player.read_bytes u)) = device u.
Proof.
  rewrite read_bytes_eq. cbv zeta.
  destruct (firstn 4 (rx u)); [split; reflexivity |].
  destruct (Py.int _ 16); split; reflexivity.
Qed.

Lemma generic_query_fst (g : M Z) (op : Z) (u : UART) :
  In (g, op) generic_queries -> fst (g u) = decoded (next_reply u).
Proof.
  intros H. rewrite (generic_query_eq g op u H).
  now apply decoded_eq.
Qed.

Lemma generic_query_run (g : M Z) (op : Z) (u : UART) :
  In (g, op) generic_queries ->
  tx (snd (g u)) = tx u ++ [[0x7E; 0x02; op; 0xEF]] /\
  rx (snd (g u)) = skipn 4 (next_reply u) /\
  device (snd (g u)) = tl (device u).
Proof.
  intros H. rewrite (generic_query_eq g op u H).
  destruct (read_bytes_rest (after_write [0x7E; 0x02; op; 0xEF] u)) as [Hr Hd].
  rewrite read_bytes_tx, Hr, Hd. repeat apply conj; reflexivity.
Qed.

(** A generic numeric query writes the one frame of its opcode and returns
    what [read_bytes] makes of the device's reply to that frame: the bytes
    that were pending before the call play no part, since two links with the
    same device give the same result.  The bytes of the reply beyond the
    fourth stay on the link. *)
Theorem generic_query_result (g : M Z) (op : Z) (u : UART) :
  In (g, op) generic_queries ->
  fst (g u) = decoded (next_reply u) /\
  tx (snd (g u)) = tx u ++ [[0x7E; 0x02; op; 0xEF]] /\
  rx (snd (g u)) = skipn 4 (next_reply u) /\
  device (snd (g u)) = tl (device u) /\
  (forall u', device u' = device u -> fst (g u') = fst (g u)).
Proof.
  intros H. split; [now apply (generic_query_fst g op) |].
  destruct (generic_query_run g op u H) as (Ht & Hr & Hd).
  repeat apply conj; try assumption.
  intros u' Hu. rewrite !(generic_query_fst g op) by exact H.
  unfold next_reply. now rewrite Hu.
Qed.

Lemma generic_query_result_witness :
  fst (Player.get_length (mkUART [1; 2; 3] [] [[51; 99; 48; 48; 57]] []))
  = Return 15360 /\
  rx (snd (Player.get_length (mkUART [1; 2; 3] [] [[51; 99; 48; 48; 57]] [])))
  = [57].
Proof.
  destruct (generic_query_result Player.get_length 0x51
              (mkUART [1; 2; 3] [] [[51; 99; 48; 48; 57]] []))
    as (H1 & _ & H2 & _).
  - simpl. tauto.
  - split; [exact H1 | exact H2].
Defined.

(** [get_name] never raises: it writes the frame of opcode 0x52 and returns
    the whole reply of the device as it came, of any length and content,
    leaving nothing on the link; bytes pending before the call are not part
    of the name. *)
Theorem get_name_raw (u : UART) :
  Player.get_name u
  = (Return (next_reply u),
     mkUART [] (tx u ++ [[0x7E; 0x02; 0x52; 0xEF]]) (tl (device u))
            (console u)) /\
  (forall u', device u' = device u ->
   fst (Player.get_name u') = fst (Player.get_name u)).
Proof.
  assert (E : forall w, Player.get_name w
              = (Return (next_reply w),
                 mkUART [] (tx w ++ [[0x7E; 0x02; 0x52; 0xEF]])
                        (tl (device w)) (console w))).
  { intros w. unfold Player.get_name.
    rewrite (bind_Return _ _ _ _ _ (write_opcode 0x52 w ltac:(lia))).
    reflexivity. }
  split; [apply E |].
  intros u' Hu. rewrite !E. unfold next_reply. now rewrite Hu.
Qed.

Lemma get_name_raw_witness :
  fst (Player.get_name (mkUART [9; 9] [] [[65; 46; 77; 80; 51]] []))
  = fst (Player.get_name (mkUART [] [] [[65; 46; 77; 80; 51]] [])).
Proof.
  destruct (get_name_raw (mkUART [] [] [[65; 46; 77; 80; 51]] [])) as [_ H].
  apply H. reflexivity.
Defined.

(** One method after another: a query that follows a written frame, or a
    generic query that returned, decodes the device's second reply.  The
    reply to the first frame, and what the first query left unread, are
    discarded by the flush that opens the second write. *)
Theorem query_after_frame (g : M Z) (op : Z) (u : UART) :
  In (g, op) generic_queries ->
  (forall b, (forall x, In x b -> 0 <= x <= 255) -> (length b < 255)%nat ->
   fst ((Player.write_bytes b ;; g) u) = decoded (hd [] (tl (device u)))) /\
  (forall g1 op1 v, In (g1, op1) generic_queries -> fst (g1 u) = Return v ->
   fst ((g1 ;; g) u) = decoded (hd [] (tl (device u)))) /\
  (forall g1 op1 v, In (g1, op1) generic_queries -> fst (g1 u) = Return v ->
   fst ((g1 ;; Player.read_buffer) u) = Return (skipn 4 (next_reply u))).
Proof.
  intros H. split; [| split].
  - intros b Hb Hl.
    rewrite (bind_Return _ _ _ _ _ (write_bytes_ok b u (frame_is_bytes b Hb Hl))).
    now rewrite (generic_query_fst g op).
  - intros g1 op1 v H1 Hv.
    destruct (generic_query_run g1 op1 u H1) as (_ & _ & Hd).
    destruct (g1 u) as [r u1] eqn:E. simpl in Hv, Hd. subst r.
    rewrite (bind_Return _ _ _ _ _ E), (generic_query_fst g op) by exact H.
    unfold next_reply. now rewrite Hd.
  - intros g1 op1 v H1 Hv.
    destruct (generic_query_run g1 op1 u H1) as (_ & Hr & _).
    destruct (g1 u) as [r u1] eqn:E. simpl in Hv, Hr. subst r.
    rewrite (bind_Return _ _ _ _ _ E).
    unfold Player.read_buffer, uart_read_all. simpl. now rewrite Hr.
Qed.

Lemma query_after_frame_witness :
  fst ((Player.write_bytes [0x06; 0x14] ;; Player.get_volume)
         (mkUART [] [] [[79; 75]; [49; 52]] []))
  = Return 20 /\
  fst ((Player.get_position ;; Player.get_volume)
         (mkUART [] [] [[48; 48; 48; 55; 56]; [49; 52]] []))
  = Return 20 /\
  fst ((Player.get_position ;; Player.read_buffer)
         (mkUART [] [] [[48; 48; 48; 55; 56]; [49; 52]] []))
  = Return [56].
Proof.
  split; [| split].
  - destruct (query_after_frame Player.get_volume 0x43
                (mkUART [] [] [[79; 75]; [49; 52]] [])) as (H & _).
    + simpl. tauto.
    + apply (H [0x06; 0x14]).
      * intros x [<- | [<- | []]]; lia.
      * simpl. lia.
  - destruct (query_after_frame Player.get_volume 0x43
                (mkUART [] [] [[48; 48; 48; 55; 56]; [49; 52]] []))
      as (_ & H & _).
    + simpl. tauto.
    + apply (H Player.get_position 0x50 7); [simpl; tauto | reflexivity].
  - destruct (query_after_frame Player.get_volume 0x43
                (mkUART [] [] [[48; 48; 48; 55; 56]; [49; 52]] []))
      as (_ & _ & H).
    + simpl. tauto.
    + apply (H Player.get_position 0x50 7); [simpl; tauto | reflexivity].
Defined.

(** ** The range of the values returned *)

Lemma digit_in_16_range (c d : Z) : Py.digit_in 16 c = Some d -> 0 <= d < 16.
Proof.
  unfold Py.digit_in, Py.digit_value.
  destruct ((48 <=? c) && (c <=? 57)) eqn:E1.
  - apply andb_true_iff in E1. rewrite !Z.leb_le in E1.
    destruct (c - 48 <? 16); [| discriminate]. intros [= <-]. lia.
  - destruct ((97 <=? c) && (c <=? 122)) eqn:E2.
    + apply andb_true_iff in E2. rewrite !Z.leb_le in E2.
      destruct (c - 87 <? 16) eqn:E; [| discriminate].
      apply Z.ltb_lt in E. intros [= <-]. lia.
    + destruct ((65 <=? c) && (c <=? 90)) eqn:E3; [| discriminate].
      apply andb_true_iff in E3. rewrite !Z.leb_le in E3.
      destruct (c - 55 <? 16) eqn:E; [| discriminate].
      apply Z.ltb_lt in E. intros [= <-]. lia.
Qed.

(** The digits read from [s] on top of a value below [16 ^ k] give a value
    below [16 ^ (k + length s)]. *)
Lemma scan_bound (s : list Z) : forall p acc n v m rest k,
  0 <= k -> 0 <= acc < 16 ^ k ->
  Py.scan_digits 16 s p acc n = Some (v, m, rest) ->
  0 <= v < 16 ^ (k + Z.of_nat (length s)).
Proof.
  induction s as [| c s IH]; intros p acc n v m rest k Hk Ha.
  - simpl. destruct p; [discriminate |]. intros [= <- _ _].
    now rewrite Z.add_0_r.
  - change (length (c :: s)) with (S (length s)). rewrite Nat2Z.inj_succ.
    assert (Hmono : 16 ^ k <= 16 ^ (k + Z.succ (Z.of_nat (length s))))
      by (apply Z.pow_le_mono_r; lia).
    cbn [Py.scan_digits]. destruct (c =? 95).
    + destruct p; [discriminate |]. intros H.
      apply (IH _ _ _ _ _ _ k Hk Ha) in H.
      assert (16 ^ (k + Z.of_nat (length s))
              <= 16 ^ (k + Z.succ (Z.of_nat (length s))))
        by (apply Z.pow_le_mono_r; lia).
      lia.
    + destruct (Py.digit_in 16 c) as [d |] eqn:Ed.
      * apply digit_in_16_range in Ed. intros H.
        apply (IH _ _ _ _ _ _ (k + 1)) in H; [| lia |].
        -- replace (k + Z.succ (Z.of_nat (length s)))
             with (k + 1 + Z.of_nat (length s)) by lia.
           exact H.
        -- rewrite Z.pow_add_r by lia. change (16 ^ 1) with 16. lia.
      * destruct p; [discriminate |]. intros [= <- _ _]. lia.
Qed.

Lemma drop_space_length (s : list Z) :
  (length (Py.drop_space s) <= length s)%nat.
Proof.
  induction s as [| c s IH]; simpl; [lia |].
  destruct (Py.is_space c); simpl; lia.
Qed.

Lemma strip_sign_length (s : list Z) :
  (length (snd (Py.strip_sign s)) <= length s)%nat /\
  (fst (Py.strip_sign s) = true ->
   (S (length (snd (Py.strip_sign s))) = length s)%nat).
Proof.
  destruct s as [| c s]; simpl; [split; [lia | discriminate] |].
  destruct (c =? 43); simpl; [split; [lia | discriminate] |].
  destruct (c =? 45); simpl; split; try lia; discriminate.
Qed.

Lemma strip_prefix_length (base : Z) (s : list Z) :
  (length (Py.strip_prefix base s) <= length s)%nat.
Proof.
  destruct s as [| z [| c t]]; simpl; try lia.
  destruct ((base =? 16) && (z =? 48) && ((c =? 120) || (c =? 88)));
    simpl; [| lia].
  destruct t as [| c' t']; simpl; [lia |].
  destruct (c' =? 95); simpl; lia.
Qed.

(** [int(b, 16)] of at most four bytes lies between -0xFFF and 0xFFFF. *)
Lemma int_16_bound (b : list Z) (v : Z) :
  (length b <= 4)%nat -> Py.int b 16 = Some v -> -4095 <= v <= 65535.
Proof.
  intros Hl. unfold Py.int.
  pose proof (drop_space_length b) as H1.
  destruct (strip_sign_length (Py.drop_space b)) as [H2 H2n].
  destruct (Py.strip_sign (Py.drop_space b)) as [neg s2]. simpl in H2, H2n.
  pose proof (strip_prefix_length 16 s2) as H3.
  destruct (Py.starts_with_underscore (Py.strip_prefix 16 s2)); [discriminate |].
  destruct (Py.scan_digits 16 (Py.strip_prefix 16 s2) false 0 0)
    as [[[w m] rest] |] eqn:Es; [| discriminate].
  destruct m; [discriminate |].
  destruct (Py.drop_space rest); [| discriminate].
  apply (scan_bound _ _ _ _ _ _ _ 0) in Es; [| lia | simpl; lia].
  rewrite Z.add_0_l in Es.
  destruct neg; intros [= <-].
  - specialize (H2n eq_refl).
    assert (16 ^ Z.of_nat (length (Py.strip_prefix 16 s2)) <= 16 ^ 3)
      by (apply Z.pow_le_mono_r; lia).
    change (16 ^ 3) with 4096 in *. lia.
  - assert (16 ^ Z.of_nat (length (Py.strip_prefix 16 s2)) <= 16 ^ 4)
      by (apply Z.pow_le_mono_r; lia).
    change (16 ^ 4) with 65536 in *. lia.
Qed.

Lemma read_bytes_bound (u : UART) (v : Z) :
  fst (Player.read_bytes u) = Return v -> -4095 <= v <= 65535.
Proof.
  rewrite read_bytes_eq. cbv zeta.
  destruct (firstn 4 (rx u)) as [| c t] eqn:E; [intros [= <-]; lia |].
  destruct (Py.int (c :: t) 16) as [w |] eqn:Ei; [| discriminate].
  intros [= <-]. apply (int_16_bound (c :: t)); [| exact Ei].
  rewrite <- E. rewrite length_firstn. lia.
Qed.

(** Whatever the device replies, a value that [read_bytes] or a generic
    numeric query returns lies between -4095 and 65535, and one that
    [get_file_index] returns for the built-in flash between -4094 and
    65536: four characters hold at most four hexadecimal digits, or a sign
    and three. *)
Theorem query_value_bound (u : UART) (v : Z) :
  (fst (Player.read_bytes u) = Return v -> -4095 <= v <= 65535) /\
  (forall g op, In (g, op) generic_queries -> fst (g u) = Return v ->
   -4095 <= v <= 65535) /\
  (fst (Player.get_file_index Player.SRC_BUILTIN u) = Return v ->
   -4094 <= v <= 65536).
Proof.
  split; [apply read_bytes_bound |]. split.
  - intros g op H. rewrite (generic_query_eq g op u H). apply read_bytes_bound.
  - rewrite get_file_index_builtin_eq. unfold bind.
    destruct (Player.read_bytes (after_write [126; 2; 77; 239] u))
      as [[w | e] u1] eqn:E; [| discriminate].
    intros [= <-].
    assert (-4095 <= w <= 65535); [| lia].
    apply (read_bytes_bound (after_write [126; 2; 77; 239] u)).
    now rewrite E.
Qed.

Lemma query_value_bound_witness :
  (fst (Player.read_bytes (mkUART [102; 102; 102; 102] [] [] []))
   = Return 65535 /\ -4095 <= 65535 <= 65535) /\
  (fst (Player.get_volume (mkUART [] [] [[45; 102; 102; 102]] []))
   = Return (-4095) /\ -4095 <= -4095 <= 65535) /\
  (fst (Player.get_file_index Player.SRC_BUILTIN (mkUART [] [] [] []))
   = Return 0 /\ -4094 <= 0 <= 65536).
Proof.
  split; [| split]; (split; [reflexivity |]).
  - destruct (query_value_bound (mkUART [102; 102; 102; 102] [] [] []) 65535)
      as (H & _).
    apply H. reflexivity.
  - destruct (query_value_bound (mkUART [] [] [[45; 102; 102; 102]] []) (-4095))
      as (_ & H & _).
    apply (H Player.get_volume 0x43); [simpl; tauto | reflexivity].
  - destruct (query_value_bound (mkUART [] [] [] []) 0) as (_ & _ & H).
    apply H. reflexivity.
Defined.

Lemma decimal_value_nonneg (s : list Z) :
  Forall (fun c => 48 <= c <= 57) s -> 0 <= decimal_value s.
Proof.
  unfold decimal_value. intros H.
  assert (G : forall acc, 0 <= acc ->
              0 <= fold_left (fun a c => 10 * a + (c - 48)) s acc).
  { induction H as [| c s Hc Hs IH]; intros acc Ha; cbn [fold_left];
      [exact Ha |].
    cbv beta in Hc. apply IH. lia. }
  apply G. lia.
Qed.

(** For the status query the sentinel is unambiguous: [get_status] returns
    -1 exactly when the reply is not a non-empty string of decimal digits,
    and a status it decodes is never negative. *)
Theorem get_status_sentinel (u : UART) :
  (forall s, fst (Player.get_status u) = Return s -> -1 <= s) /\
  (fst (Player.get_status u) = Return (-1) <->
   ~ (next_reply u <> [] /\ Forall (fun c => 48 <= c <= 57) (next_reply u))).
Proof.
  destruct (get_status_value u) as [Hd Hn].
  assert (D : (next_reply u <> [] /\
               Forall (fun c => 48 <= c <= 57) (next_reply u)) \/
              ~ (next_reply u <> [] /\
                 Forall (fun c => 48 <= c <= 57) (next_reply u))).
  { destruct (Py.isdigit (next_reply u)) eqn:E.
    - left. now apply isdigit_iff.
    - right. intros H. apply isdigit_iff in H. congruence. }
  destruct D as [[Hne Hf] | Hno].
  - rewrite (Hd Hne Hf). pose proof (decimal_value_nonneg _ Hf) as Hp.
    split.
    + intros s [= <-]. lia.
    + split; [intros [= E]; lia | intros H; exfalso; apply H; tauto].
  - rewrite (Hn Hno). split.
    + intros s [= <-]. lia.
    + tauto.
Qed.

Lemma get_status_sentinel_witness :
  fst (Player.get_status (mkUART [] [] [[45; 49]] [])) = Return (-1) /\
  -1 <= 7.
Proof.
  split.
  - destruct (get_status_sentinel (mkUART [] [] [[45; 49]] [])) as [_ [_ H]].
    apply H. intros [_ F]. apply Forall_inv in F. lia.
  - destruct (get_status_sentinel (mkUART [] [] [[48; 55]] [])) as [H _].
    apply (H 7). reflexivity.
Defined.

Section SignedNumerals.

Variable base : Z.
Variable dv : Z -> Z.

Lemma int_plain_signed (s : list Z) :
  s <> [] -> Forall (plain_digit base dv) s ->
  Py.int (45 :: s) base
  = Some (- fold_left (fun a c => base * a + dv c) s 0).
Proof.
  intros Hne Hs. destruct s as [| c s]; [congruence |].
  pose proof (Forall_inv Hs) as Hc.
  destruct (plain_digit_not_special base dv c Hc) as (E95 & _).
  unfold Py.int.
  change (Py.drop_space (45 :: c :: s)) with (45 :: c :: s).
  change (Py.strip_sign (45 :: c :: s)) with (true, c :: s).
  cbv beta iota zeta.
  assert (Hp : Py.strip_prefix base (c :: s) = c :: s).
  { unfold Py.strip_prefix. destruct s as [| c2 s]; [reflexivity |].
    pose proof (Forall_inv (Forall_inv_tail Hs)) as Hc2.
    destruct (plain_digit_not_special base dv c2 Hc2)
      as (_ & _ & _ & _ & -> & ->).
    now rewrite andb_false_r. }
  rewrite Hp. unfold Py.starts_with_underscore. rewrite E95.
  rewrite (scan_plain base dv (c :: s) Hs). reflexivity.
Qed.

End SignedNumerals.

Lemma hex_value_nonneg (s : list Z) : Forall is_hex_digit s -> 0 <= hex_value s.
Proof.
  unfold hex_value. intros H.
  assert (G : forall acc, 0 <= acc ->
              0 <= fold_left (fun a c => 16 * a + hex_digit_value c) s acc).
  { induction H as [| c s Hc Hs IH]; intros acc Ha; cbn [fold_left];
      [exact Ha |].
    apply IH. destruct (hex_digit_plain c Hc) as [_ Hd].
    apply digit_in_16_range in Hd. lia. }
  apply G. lia.
Qed.

(** For the generic queries the sentinel is ambiguous: a reply made of a
    minus sign and one to three hexadecimal digits is decoded as the negated
    value, which is zero or less, so that the replies "-1", "-01" and "-001"
    all give the -1 of an absent reply. *)
Theorem read_bytes_negative (s : list Z) :
  s <> [] -> (length s <= 3)%nat -> Forall is_hex_digit s ->
  decoded (45 :: s) = Return (- hex_value s) /\
  - hex_value s <= 0 /\
  (hex_value s = 1 -> decoded (45 :: s) = decoded []).
Proof.
  intros Hne Hl Hs.
  assert (E : decoded (45 :: s) = Return (- hex_value s)).
  { unfold decoded. rewrite read_bytes_eq. cbv zeta. cbn [rx].
    assert (F : firstn 4 (45 :: s) = 45 :: s)
      by (apply firstn_all2; simpl; lia).
    rewrite F.
    rewrite (int_plain_signed 16 hex_digit_value s Hne).
    - reflexivity.
    - eapply Forall_impl; [| exact Hs]. exact hex_digit_plain. }
  split; [exact E |]. split.
  - pose proof (hex_value_nonneg s Hs). lia.
  - intros H1. rewrite E, H1. reflexivity.
Qed.

Lemma read_bytes_negative_witness :
  decoded [45; 48; 49] = Return (-1) /\ decoded [45; 48; 49] = decoded [].
Proof.
  destruct (read_bytes_negative [48; 49]) as (H1 & _ & H2).
  - discriminate.
  - simpl. lia.
  - repeat constructor; unfold is_hex_digit; lia.
  - split; [exact H1 | apply H2; reflexivity].
Defined.

(** ** What a session writes to the link *)

Lemma emits_silent {A : Type} (m : M A) :
  (forall u, tx (snd (m u)) = tx u) -> emits_frames m.
Proof.
  intros H u. exists []. rewrite app_nil_r. split; [apply H | constructor].
Qed.

Lemma emits_bind {A B : Type} (m : M A) (k : A -> M B) :
  emits_frames m -> (forall a, emits_frames (k a)) -> emits_frames (bind m k).
Proof.
  intros Hm Hk u. unfold bind. destruct (Hm u) as (fs & E & F).
  destruct (m u) as [[a | e] u1]; simpl in E.
  - destruct (Hk a u1) as (fs2 & E2 & F2). exists (fs ++ fs2).
    rewrite E2, E, app_assoc. split; [reflexivity | now apply Forall_app].
  - exists fs. simpl. auto.
Qed.

Lemma driver_frame_intro (b : list Z) :
  forallb Py.is_byte (frame_of b) = true ->
  (1 <= length b <= 3)%nat ->
  (forall rest, b = 0x06 :: rest ->
   exists level, rest = [level] /\ 0 <= level <= 30) ->
  driver_frame (frame_of b).
Proof.
  intros Hb Hl H6. exists b. repeat apply conj; auto; try lia.
  apply Forall_forall. intros x Hx. apply is_byte_iff.
  rewrite forallb_forall in Hb. apply Hb. unfold frame_of.
  simpl. right. right. apply in_or_app. now left.
Qed.

Lemma emits_write_bytes (b : list Z) :
  (1 <= length b <= 3)%nat ->
  (forall rest, b = 0x06 :: rest ->
   exists level, rest = [level] /\ 0 <= level <= 30) ->
  emits_frames (Player.write_bytes b).
Proof.
  intros Hl H6 u. destruct (forallb Py.is_byte (frame_of b)) eqn:E.
  - exists [frame_of b]. rewrite (write_bytes_ok b u E).
    split; [reflexivity |]. constructor; [| constructor].
    now apply driver_frame_intro.
  - exists []. rewrite (write_bytes_bad b u E). simpl.
    rewrite app_nil_r. split; [reflexivity | constructor].
Qed.

Lemma emits_set_volume (level : Z) : emits_frames (Player.set_volume level).
Proof.
  intros u. destruct (Z_le_dec 0 level) as [H0 |];
    [destruct (Z_le_dec level 30) as [H30 |] |].
  - exists [frame_of [0x06; level]].
    rewrite (set_volume_ok level u (conj H0 H30)).
    split; [reflexivity |]. constructor; [| constructor].
    exists [0x06; level]. repeat apply conj; try reflexivity; simpl; try lia.
    + repeat constructor; lia.
    + intros rest [= <-]. exists level. split; [reflexivity | lia].
  - exists []. rewrite set_volume_bad by lia. rewrite app_nil_r.
    split; [reflexivity | constructor].
  - exists []. rewrite set_volume_bad by lia. rewrite app_nil_r.
    split; [reflexivity | constructor].
Qed.

Lemma emits_to_int (b : list Z) (base : Z) : emits_frames (to_int b base).
Proof.
  apply emits_silent. intros u. unfold to_int.
  destruct (Py.int b base); reflexivity.
Qed.

(** The methods are put together from pieces that write frames of the driver
    or nothing. *)
Ltac emits :=
  repeat first
    [ apply emits_set_volume
    | apply emits_to_int
    | apply emits_write_bytes;
      [ simpl; lia | let E := fresh in intros ? E; discriminate E ]
    | apply emits_silent; first [ apply read_bytes_tx | reflexivity ]
    | apply emits_bind; [| intros ?]
    | match goal with
      | |- emits_frames (if ?c then _ else _) => destruct c
      end ].

Lemma traffic_emits (c : call) (u : UART) :
  is_raw c = false ->
  exists fs, tx (traffic c u) = tx u ++ fs /\ Forall driver_frame fs.
Proof.
  intros Hc. revert u.
  destruct c; try discriminate Hc; cbn [traffic]; intros u;
    match goal with
    | |- exists fs, tx (link_after ?m u) = _ /\ _ =>
        revert u; change (emits_frames m)
    end;
    unfold Player.play, Player.play_pause, Player.restart,
      Player.pause, Player.next, Player.prev, Player.next_folder,
      Player.prev_folder, Player.play_by_index, Player.play_by_number,
      Player.volume_up, Player.volume_down, Player.set_equalizer,
      Player.set_looping, Player.set_source, Player.sleep, Player.reset,
      Player.get_status, Player.get_volume, Player.get_equalizer,
      Player.get_looping, Player.get_file_count, Player.get_folder_count,
      Player.get_file_index, Player.get_position, Player.get_length,
      Player.get_name, Player.get_version, Player.read_buffer;
    emits.
Qed.

Lemma init_emits (volume : Z) : emits_frames (Player.init volume).
Proof. unfold Player.init, Player.reset. emits. Qed.

Lemma driver_frame_link (f : list Z) : driver_frame f -> link_frame f.
Proof.
  intros (b & E & Hl & Hb & _). exists b. repeat apply conj; auto. lia.
Qed.

Lemma write_bytes_link_frame (b : list Z) (u : UART) :
  exists fs, tx (snd (Player.write_bytes b u)) = tx u ++ fs
             /\ Forall link_frame fs.
Proof.
  destruct (forallb Py.is_byte (frame_of b)) eqn:E.
  - exists [frame_of b]. rewrite (write_bytes_ok b u E).
    split; [reflexivity |]. constructor; [| constructor].
    rewrite forallb_forall in E. exists b. repeat apply conj.
    + reflexivity.
    + apply Forall_forall. intros x Hx. apply is_byte_iff, E.
      unfold frame_of. simpl. right. right. apply in_or_app. now left.
    + assert (H : 0 <= Py.len b + 1 <= 255).
      { apply is_byte_iff, E. unfold frame_of. simpl. tauto. }
      unfold Py.len in H. lia.
  - exists []. rewrite (write_bytes_bad b u E). simpl.
    rewrite app_nil_r. split; [reflexivity | constructor].
Qed.

Lemma traffic_frames (c : call) (u : UART) :
  exists fs, tx (traffic c u) = tx u ++ fs /\ Forall link_frame fs.
Proof.
  destruct (is_raw c) eqn:Hc.
  - destruct c; try discriminate Hc. apply write_bytes_link_frame.
  - destruct (traffic_emits c u Hc) as (fs & E & F). exists fs.
    split; [exact E |]. eapply Forall_impl; [| exact F].
    exact driver_frame_link.
Qed.

Lemma perform_uart (c : call) (h : Handle) :
  uart (perform c h) = if released h then uart h else traffic c (uart h).
Proof.
  destruct c; cbn [perform]; try (destruct (released h); reflexivity).
  unfold clean_up. destruct (released h); [reflexivity |].
  cbn [traffic]. unfold link_after.
  destruct (Player.reset (uart h)) as [[[] | e] u'];
    [destruct (has_deinit h) |]; reflexivity.
Qed.

(** What the calls of a session add to the output, when each call on an open
    link adds frames that satisfy [P]. *)
Lemma session_adds (P : list Z -> Prop) (Q : call -> Prop) :
  (forall c u, Q c ->
   exists fs, tx (traffic c u) = tx u ++ fs /\ Forall P fs) ->
  forall cs, Forall Q cs -> forall h,
  exists fs, tx (uart (session cs h)) = tx (uart h) ++ fs /\ Forall P fs.
Proof.
  intros Hstep cs Hcs. induction Hcs as [| c cs Hc Hcs IH]; intros h.
  - exists []. simpl. rewrite app_nil_r. split; [reflexivity | constructor].
  - unfold session in *. cbn [fold_left].
    destruct (IH (perform c h)) as (fs2 & E2 & F2).
    rewrite perform_uart in E2. destruct (released h).
    + exists fs2. split; [exact E2 | exact F2].
    + destruct (Hstep c (uart h) Hc) as (fs1 & E1 & F1).
      exists (fs1 ++ fs2). rewrite E2, E1, app_assoc.
      split; [reflexivity | now apply Forall_app].
Qed.

Lemma lifetime_adds (P : list Z -> Prop) (Q : call -> Prop) :
  (forall f, driver_frame f -> P f) ->
  (forall c u, Q c ->
   exists fs, tx (traffic c u) = tx u ++ fs /\ Forall P fs) ->
  forall volume cs d u, Forall Q cs ->
  exists fs, tx (uart (lifetime volume cs d u)) = tx u ++ fs /\ Forall P fs.
Proof.
  intros HP Hstep volume cs d u Hcs. unfold lifetime.
  destruct (init_emits volume u) as (fs0 & E0 & F0).
  assert (F0' : Forall P fs0) by (eapply Forall_impl; [exact HP | exact F0]).
  destruct (Player.init volume u) as [[[] | e] u']; simpl in E0.
  - destruct (session_adds P Q Hstep cs Hcs (mkHandle u' d false))
      as (fs & E & F).
    cbn [uart] in E. exists (fs0 ++ fs). rewrite E, E0, app_assoc.
    split; [reflexivity | now apply Forall_app].
  - exists fs0. cbn [uart]. split; [exact E0 | exact F0'].
Qed.

Lemma link_frame_shape (f : list Z) :
  link_frame f ->
  hd_error f = Some 0x7E /\ last f 0 = 0xEF /\
  nth 1 f 0 = Z.of_nat (length f) - 2 /\
  Forall (fun x => 0 <= x <= 255) f.
Proof.
  intros (b & -> & Hb & Hl). unfold frame_of. repeat apply conj.
  - reflexivity.
  - change (last (([0x7E; Py.len b + 1] ++ b) ++ [0xEF]) 0 = 0xEF).
    apply last_last.
  - cbn [app nth length]. rewrite length_app. cbn [length]. unfold Py.len. lia.
  - cbn [app]. constructor; [lia |]. constructor; [unfold Py.len; lia |].
    apply Forall_app. split; [exact Hb |]. constructor; [lia | constructor].
Qed.

Lemma driver_frame_shape (f : list Z) :
  driver_frame f ->
  (4 <= length f <= 6)%nat /\
  (nth 2 f 0 = 0x06 -> length f = 5%nat /\ 0 <= nth 3 f 0 <= 30).
Proof.
  intros (b & -> & Hl & Hb & H6).
  destruct b as [| op [| a [| a' [| ? ?]]]]; simpl in Hl; try lia;
    unfold frame_of; simpl; (split; [lia |]); intros ->;
    destruct (H6 _ eq_refl) as (level & E & Hlev); try discriminate E.
  injection E as ->. split; [reflexivity | lia].
Qed.

(** Over the whole life of a [Player], whatever the initial volume, the
    calls, their order and arguments, and whatever the device replies, the
    driver only ever adds frames to what it has written: each is [0x7E], its
    length less two, a payload of bytes, [0xEF].  When the client leaves
    [write_bytes] to the other methods, every frame has a payload of one to
    three bytes, and a frame of opcode 0x06 (set volume) is five bytes long
    with a level of at most 30, also when the level comes from the device as
    in [restart].  The range check is in [set_volume] only: [write_bytes]
    called with the payload 0x06, [level] sends any byte as the level. *)
Theorem session_frames (volume : Z) (cs : list call) (d : bool) (u : UART) :
  (exists fs,
     tx (uart (lifetime volume cs d u)) = tx u ++ fs /\
     Forall link_frame fs /\
     (forall f, In f fs ->
      hd_error f = Some 0x7E /\ last f 0 = 0xEF /\
      nth 1 f 0 = Z.of_nat (length f) - 2 /\
      Forall (fun x => 0 <= x <= 255) f) /\
     (Forall (fun c => is_raw c = false) cs ->
      Forall driver_frame fs /\
      forall f, In f fs ->
      (4 <= length f <= 6)%nat /\
      (nth 2 f 0 = 0x06 -> length f = 5%nat /\ 0 <= nth 3 f 0 <= 30))) /\
  (forall level h, released h = false -> 0 <= level <= 255 ->
   tx (uart (perform (WriteBytes [0x06; level]) h))
   = tx (uart h) ++ [[0x7E; 0x03; 0x06; level; 0xEF]]).
Proof.
  split.
  - destruct (lifetime_adds link_frame (fun _ => True) driver_frame_link
                (fun c u _ => traffic_frames c u) volume cs d u)
      as (fs & E & F).
    { apply Forall_forall. auto. }
    exists fs. split; [exact E |]. split; [exact F |]. split.
    + intros f Hf. apply link_frame_shape.
      rewrite Forall_forall in F. now apply F.
    + intros Hcs.
      destruct (lifetime_adds driver_frame (fun c => is_raw c = false)
                  (fun f H => H) traffic_emits volume cs d u Hcs)
        as (fs' & E' & F').
      rewrite E in E'. apply app_inv_head in E'. subst fs'.
      split; [exact F' |].
      intros f Hf. apply driver_frame_shape.
      rewrite Forall_forall in F'. now apply F'.
  - intros level h Hr Hl. cbn [perform]. rewrite Hr. cbn [uart traffic].
    unfold link_after.
    destruct (write_one_arg 0x06 level (uart h) ltac:(lia)) as [Hw _].
    rewrite (Hw Hl). reflexivity.
Qed.

(** ** File counts and teardown *)

(** [get_file_count] asks with opcode 0x47 for the SD card and with opcode
    0x49 for every other source value, not only [SRC_BUILTIN], and returns
    what the reply decodes to with no offset, unlike the file index of the
    built-in flash. *)
Theorem get_file_count_sources (source : Z) (u : UART) :
  (source = Player.SRC_SDCARD ->
   tx (snd (Player.get_file_count source u))
   = tx u ++ [[0x7E; 0x02; 0x47; 0xEF]]) /\
  (source <> Player.SRC_SDCARD ->
   tx (snd (Player.get_file_count source u))
   = tx u ++ [[0x7E; 0x02; 0x49; 0xEF]]) /\
  fst (Player.get_file_count source u) = decoded (next_reply u).
Proof.
  assert (E : Player.get_file_count source u
              = Player.read_bytes
                  (after_write [0x7E; 0x02;
                                if source =? Player.SRC_SDCARD then 0x47 else 0x49;
                                0xEF] u)).
  { unfold Player.get_file_count.
    destruct (source =? Player.SRC_SDCARD); apply query_eq; lia. }
  rewrite E, read_bytes_tx. repeat apply conj.
  - intros ->. reflexivity.
  - intros H. apply Z.eqb_neq in H. now rewrite H.
  - now apply decoded_eq.
Qed.

Lemma get_file_count_sources_witness :
  tx (snd (Player.get_file_count 1 (mkUART [] [] [[50; 65]] [])))
  = [[0x7E; 0x02; 0x47; 0xEF]] /\
  tx (snd (Player.get_file_count 0 (mkUART [] [] [[50; 65]] [])))
  = [[0x7E; 0x02; 0x49; 0xEF]].
Proof.
  split.
  - destruct (get_file_count_sources 1 (mkUART [] [] [[50; 65]] []))
      as (H & _).
    apply H. reflexivity.
  - destruct (get_file_count_sources 0 (mkUART [] [] [[50; 65]] []))
      as (_ & H & _).
    apply H. unfold Player.SRC_SDCARD. lia.
Defined.

(** [clean_up] on a link that is open returns, having discarded the
    pending input and written the one reset frame, and releases the link
    exactly when the link object has a [deinit].  Called again after that
    release it raises at once and writes nothing; on a link without [deinit]
    a second call resets the device a second time. *)
Theorem clean_up_resets (h : Handle) :
  (released h = false ->
   fst (clean_up h) = Return tt /\
   uart (snd (clean_up h)) = after_write [0x7E; 0x02; 0x0C; 0xEF] (uart h) /\
   released (snd (clean_up h)) = has_deinit h /\
   has_deinit (snd (clean_up h)) = has_deinit h) /\
  (released h = true -> clean_up h = (Raise Py.ValueError, h)) /\
  (released h = false -> has_deinit h = true ->
   clean_up (snd (clean_up h)) = (Raise Py.ValueError, snd (clean_up h))) /\
  (released h = false -> has_deinit h = false ->
   fst (clean_up (snd (clean_up h))) = Return tt /\
   tx (uart (snd (clean_up (snd (clean_up h)))))
   = tx (uart h) ++ [[0x7E; 0x02; 0x0C; 0xEF]; [0x7E; 0x02; 0x0C; 0xEF]]).
Proof.
  assert (E : forall k, released k = false ->
              clean_up k
              = (Return tt,
                 mkHandle (after_write [0x7E; 0x02; 0x0C; 0xEF] (uart k))
                          (has_deinit k) (has_deinit k))).
  { intros k Hk. unfold clean_up. rewrite Hk, reset_ok.
    destruct (has_deinit k); reflexivity. }
  assert (R : forall k, released k = true ->
              clean_up k = (Raise Py.ValueError, k)).
  { intros k Hk. unfold clean_up. now rewrite Hk. }
  repeat apply conj.
  - intros Hr. rewrite (E h Hr). repeat apply conj; reflexivity.
  - exact (R h).
  - intros Hr Hd. rewrite (E h Hr). apply R. exact Hd.
  - intros Hr Hd. rewrite (E h Hr). cbn [snd].
    rewrite E by exact Hd. cbn [fst snd uart after_write tx].
    split; [reflexivity | now rewrite <- app_assoc].
Qed.

Lemma clean_up_resets_witness :
  (fst (clean_up (mkHandle (mkUART [7] [] [] []) true false)) = Return tt /\
   tx (uart (snd (clean_up (mkHandle (mkUART [7] [] [] []) true false))))
   = [[0x7E; 0x02; 0x0C; 0xEF]] /\
   released (snd (clean_up (mkHandle (mkUART [7] [] [] []) true false)))
   = true) /\
  fst (clean_up (snd (clean_up (mkHandle (mkUART [7] [] [] []) true false))))
  = Raise Py.ValueError /\
  fst (clean_up (mkHandle (mkUART [] [[1]] [] []) true true))
  = Raise Py.ValueError /\
  tx (uart (snd (clean_up (snd (clean_up
       (mkHandle (mkUART [7] [] [] []) false false))))))
  = [[0x7E; 0x02; 0x0C; 0xEF]; [0x7E; 0x02; 0x0C; 0xEF]].
Proof.
  split; [| split; [| split]].
  - destruct (clean_up_resets (mkHandle (mkUART [7] [] [] []) true false))
      as (H & _).
    destruct (H eq_refl) as (H1 & H2 & H3 & _).
    split; [exact H1 |]. split; [now rewrite H2 | exact H3].
  - destruct (clean_up_resets (mkHandle (mkUART [7] [] [] []) true false))
      as (_ & _ & H & _).
    now rewrite (H eq_refl eq_refl).
  - destruct (clean_up_resets (mkHandle (mkUART [] [[1]] [] []) true true))
      as (_ & H & _).
    now rewrite (H eq_refl).
  - destruct (clean_up_resets (mkHandle (mkUART [7] [] [] []) false false))
      as (_ & _ & _ & H).
    destruct (H eq_refl eq_refl) as (_ & H2). exact H2.
Defined.

(** ** Commands without a reply, and what is printed *)


(** Each call of [read_bytes], and so each generic numeric query, prints the
    bytes it read, at most four, also when it goes on to raise; the status
    query and the commands print nothing. *)
Theorem queries_print (u : UART) :
  console (snd (Player.read_bytes u)) = console u ++ [firstn 4 (rx u)] /\
  (forall g op, In (g, op) generic_queries ->
   console (snd (g u)) = console u ++ [firstn 4 (next_reply u)]) /\
  console (snd (Player.get_status u)) = console u /\
  (forall b, console (snd (Player.write_bytes b u)) = console u).
Proof.
  assert (E : forall w, console (snd (Player.read_bytes w))
                        = console w ++ [firstn 4 (rx w)]).
  { intros w. rewrite read_bytes_eq. cbv zeta.
    destruct (firstn 4 (rx w)); [reflexivity |].
    destruct (Py.int _ 16); reflexivity. }
  repeat apply conj.
  - apply E.
  - intros g op H. rewrite (generic_query_eq g op u H), E. reflexivity.
  - now rewrite get_status_eq.
  - intros b. destruct (forallb Py.is_byte (frame_of b)) eqn:Eb.
    + now rewrite (write_bytes_ok b u Eb).
    + now rewrite (write_bytes_bad b u Eb).
Qed.

Lemma queries_print_witness :
  console (snd (Player.get_volume (mkUART [] [] [[122; 122; 122; 122; 122]] [])))
  = [[122; 122; 122; 122]].
Proof.
  destruct (queries_print (mkUART [] [] [[122; 122; 122; 122; 122]] []))
    as (_ & H & _).
  apply (H Player.get_volume 0x43). simpl. tauto.
Defined.

(** ** The further theorems at concrete inputs *)

(** File 999 of folder 7 goes out as file 231. *)
Lemma play_by_number_frame_witness :
  5 mod 256 = 5 /\
  999 mod 256 <> 999 /\
  Player.play_by_number 7 999 (mkUART [] [] [] [])
  = Player.play_by_number 7 (999 mod 256) (mkUART [] [] [] []).
Proof.
  split.
  - destruct (play_by_number_frame 7 5 (mkUART [] [] [] [])) as (_ & H & _).
    apply H. lia.
  - destruct (play_by_number_frame 7 999 (mkUART [] [] [] [])) as (_ & _ & H).
    apply H. lia.
Defined.

(** Mode 200 names no equalizer preset and is sent; mode 256 is refused with
    the stale byte 9 already discarded. *)
Lemma set_mode_frames_witness :
  Player.set_equalizer 200 (mkUART [9] [] [] [])
  = (Return tt, after_write [0x7E; 0x03; 0x07; 200; 0xEF] (mkUART [9] [] [] [])) /\
  Player.set_equalizer 256 (mkUART [9] [] [] [])
  = (Raise Py.ValueError, mkUART [] [] [] []).
Proof.
  split.
  - destruct (set_mode_frames 200 (mkUART [9] [] [] [])) as ((H & _) & _).
    + lia.
    + exact H.
  - destruct (set_mode_frames 256 (mkUART [9] [] [] [])) as (_ & H).
    destruct H as (H & _).
    + lia.
    + exact H.
Defined.

(** A player built with volume 20 that is then asked for volume 99, and a
    raw write of level 200. *)
Lemma session_frames_witness :
  tx (uart (lifetime 20 [SetVolume 99; GetVolume] true (mkUART [] [] [] [])))
  = [[0x7E; 0x02; 0x0C; 0xEF]; [0x7E; 0x03; 0x06; 20; 0xEF];
     [0x7E; 0x02; 0x43; 0xEF]] /\
  0 <= nth 3 [0x7E; 0x03; 0x06; 20; 0xEF] 0 <= 30 /\
  last [0x7E; 0x02; 0x43; 0xEF] 0 = 0xEF /\
  tx (uart (perform (WriteBytes [0x06; 200])
                    (mkHandle (mkUART [] [] [] []) true false)))
  = [[0x7E; 0x03; 0x06; 200; 0xEF]].
Proof.
  destruct (session_frames 20 [SetVolume 99; GetVolume] true
              (mkUART [] [] [] []))
    as ((fs & E & _ & S & D) & W).
  split; [reflexivity |].
  change (tx (uart (lifetime 20 [SetVolume 99; GetVolume] true
                      (mkUART [] [] [] []))))
    with [[0x7E; 0x02; 0x0C; 0xEF]; [0x7E; 0x03; 0x06; 20; 0xEF];
          [0x7E; 0x02; 0x43; 0xEF]] in E.
  change (tx (mkUART [] [] [] []) ++ fs) with fs in E. subst fs.
  split; [| split].
  - destruct D as (_ & D).
    + repeat constructor.
    + destruct (D [0x7E; 0x03; 0x06; 20; 0xEF]) as (_ & H6).
      * simpl. tauto.
      * apply H6. reflexivity.
  - destruct (S [0x7E; 0x02; 0x43; 0xEF]) as (_ & H & _).
    + simpl. tauto.
    + exact H.
  - apply (W 200 (mkHandle (mkUART [] [] [] []) true false));
      [reflexivity | lia].
Defined.
